(** * Workflow MCP server: a shallow embedding of [custom-mcp-server/server.js]

    The server exposes six tools over the Model Context Protocol: two
    credential helpers, two readers of the workflow store and the two
    ends of a recording session.  Every tool is an [async] function that
    either returns [{content: [{type: 'text', text}]}] or throws.

    Conventions of the embedding.
    - A JavaScript value is a [json] value or [undefined] ([None]).
      Numbers are the integers; property lookup sees own properties
      only (nothing inherited from [Object.prototype]); strings are
      byte strings.
    - [throw], [try]/[catch] and [await] are written in the [outcome]
      monad: [Returned] for a fulfilled promise, [Thrown] for a
      rejected one.
    - The file system is read through [readFile], [readdir] and
      [JSON.parse] only, so a file is kept as what [JSON.parse] makes of
      its text.  [console.error] output is not part of the state.
    - [tools/workflow-recorder.js] is imported by the server but is not
      among the sources; the part on the recorder module states what
      is taken for it. *)

From Stdlib Require Import String Ascii List ZArith Bool Arith Lia DecimalString.
Import ListNotations.

#[local] Set Warnings "-register-all".
#[local] Open Scope string_scope.

(** ** Strings *)

(** The line feed of the source's ["\n"]. *)
Definition nl : string := String (ascii_of_nat 10) EmptyString.

(** The double quote, which a literal of this file cannot hold. *)
Definition dq : string := String (ascii_of_nat 34) EmptyString.

(** [q s] is [s] between double quotes, as in the JSON samples of the
    source's templates. *)
Definition q (s : string) : string := dq ++ s ++ dq.

(** [Array.prototype.join]. *)
Definition join (sep : string) (l : list string) : string := String.concat sep l.

(** [path.join] of two segments (no normalisation of [..] or [//]). *)
Definition path_join (a b : string) : string := a ++ "/" ++ b.

(** [String.prototype.endsWith]. *)
Definition endsWith (s suffix : string) : bool :=
  (String.length suffix <=? String.length s)%nat &&
  String.eqb (substring (String.length s - String.length suffix)
                        (String.length suffix) s) suffix.

(** [drop n s] is [s] without its first [n] characters. *)
Fixpoint drop (n : nat) (s : string) : string :=
  match n, s with
  | O, _ => s
  | S n', String _ s' => drop n' s'
  | S _, EmptyString => EmptyString
  end.

(** [String.prototype.replace] with a string pattern: the first
    occurrence only.  The replacements of the source hold no [$]. *)
Fixpoint replace (pattern replacement s : string) : string :=
  if prefix pattern s then replacement ++ drop (String.length pattern) s
  else match s with
       | EmptyString => EmptyString
       | String c s' => String c (replace pattern replacement s')
       end.

(** [String.prototype.toUpperCase] on the ASCII letters. *)
Definition upper_ascii (c : ascii) : ascii :=
  let n := nat_of_ascii c in
  if ((97 <=? n) && (n <=? 122))%nat then ascii_of_nat (n - 32) else c.

Fixpoint toUpperCase (s : string) : string :=
  match s with
  | EmptyString => EmptyString
  | String c s' => String (upper_ascii c) (toUpperCase s')
  end.

(** Decimal notation of a number, as a template literal prints it. *)
Definition decimal (n : Z) : string := NilZero.string_of_int (Z.to_int n).
Definition decimal_nat (n : nat) : string := decimal (Z.of_nat n).

(** [contains sub s]: [sub] occurs in [s]. *)
Definition contains (sub s : string) : Prop :=
  exists pre post, s = pre ++ sub ++ post.

(** ** JavaScript values *)

Inductive json : Type :=
| JNull
| JBool (b : bool)
| JNum (n : Z)
| JStr (s : string)
| JArr (items : list json)
| JObj (fields : list (string * json)).

(** A value that may be [undefined]. *)
Definition jsval : Type := option json.
Definition undefined : jsval := None.

(** ToBoolean. *)
Definition truthy (v : jsval) : bool :=
  match v with
  | None | Some JNull => false
  | Some (JBool b) => b
  | Some (JNum n) => negb (n =? 0)%Z
  | Some (JStr s) => negb (String.eqb s "")
  | Some (JArr _) | Some (JObj _) => true
  end.

(** [a || b]. *)
Definition js_or (a b : jsval) : jsval := if truthy a then a else b.

(** ToString of a [json] value, as substituted into a template literal. *)
Fixpoint json_ToString (v : json) : string :=
  match v with
  | JNull => "null"
  | JBool true => "true"
  | JBool false => "false"
  | JNum n => decimal n
  | JStr s => s
  | JArr items =>
      join "," (map (fun x => match x with
                              | JNull => ""
                              | _ => json_ToString x
                              end) items)
  | JObj _ => "[object Object]"
  end.

Definition ToString (v : jsval) : string :=
  match v with
  | None => "undefined"
  | Some x => json_ToString x
  end.

(** Own property keys in enumeration order: [Object.keys]. *)
Definition Object_keys (v : json) : list string :=
  match v with
  | JObj fields => map fst fields
  | JArr items => map decimal_nat (seq 0 (List.length items))
  | JStr s => map decimal_nat (seq 0 (String.length s))
  | _ => []
  end.

Fixpoint assoc {A : Type} (k : string) (l : list (string * A)) : option A :=
  match l with
  | [] => None
  | (k', x) :: l' => if String.eqb k' k then Some x else assoc k l'
  end.

Fixpoint item_at (k : string) (i : nat) (items : list json) : jsval :=
  match items with
  | [] => None
  | x :: items' => if String.eqb (decimal_nat i) k then Some x else item_at k (S i) items'
  end.

Fixpoint char_at (k : string) (i : nat) (s : string) : jsval :=
  match s with
  | EmptyString => None
  | String c s' =>
      if String.eqb (decimal_nat i) k then Some (JStr (String c EmptyString))
      else char_at k (S i) s'
  end.

(** Own property [k] of a value that is neither [null] nor [undefined]. *)
Definition own_property (v : json) (k : string) : jsval :=
  match v with
  | JObj fields => assoc k fields
  | JArr items =>
      if String.eqb k "length" then Some (JNum (Z.of_nat (List.length items)))
      else item_at k 0 items
  | JStr s =>
      if String.eqb k "length" then Some (JNum (Z.of_nat (String.length s)))
      else char_at k 0 s
  | _ => None
  end.

(** ** JSON.stringify(value, null, 2) *)

Definition hex_digit (n : nat) : string :=
  substring n 1 "0123456789abcdef".

Definition escape_char (c : ascii) : string :=
  let n := nat_of_ascii c in
  if (n =? 34)%nat then "\" ++ dq
  else if (n =? 92)%nat then "\\"
  else if (n =? 8)%nat then "\b"
  else if (n =? 9)%nat then "\t"
  else if (n =? 10)%nat then "\n"
  else if (n =? 12)%nat then "\f"
  else if (n =? 13)%nat then "\r"
  else if (n <? 32)%nat then "\u00" ++ hex_digit (n / 16) ++ hex_digit (n mod 16)
  else String c EmptyString.

Fixpoint escape (s : string) : string :=
  match s with
  | EmptyString => EmptyString
  | String c s' => escape_char c ++ escape s'
  end.

Definition quote_json (s : string) : string := q (escape s).

Fixpoint stringify (indent : string) (v : json) : string :=
  let inner := indent ++ "  " in
  match v with
  | JNull => "null"
  | JBool true => "true"
  | JBool false => "false"
  | JNum n => decimal n
  | JStr s => quote_json s
  | JArr [] => "[]"
  | JArr items =>
      "[" ++ nl ++ inner ++
      join ("," ++ nl ++ inner) (map (stringify inner) items) ++
      nl ++ indent ++ "]"
  | JObj [] => "{}"
  | JObj fields =>
      "{" ++ nl ++ inner ++
      join ("," ++ nl ++ inner)
           (map (fun kv => match kv with
                           | (k, x) => quote_json k ++ ": " ++ stringify inner x
                           end) fields) ++
      nl ++ indent ++ "}"
  end.

Definition JSON_stringify (v : json) : string := stringify "" v.

(** ** Errors and outcomes *)

(** The failures the recorder module and the store behind it signal;
    the sources at hand name them only through the specification. *)
Inductive fault : Type :=
| AlreadyRecordingError
| NotRecordingError
| EmptyRecordingError
| UnresolvedReferenceError
| PersistenceError.

Definition fault_name (k : fault) : string :=
  match k with
  | AlreadyRecordingError => "AlreadyRecordingError"
  | NotRecordingError => "NotRecordingError"
  | EmptyRecordingError => "EmptyRecordingError"
  | UnresolvedReferenceError => "UnresolvedReferenceError"
  | PersistenceError => "PersistenceError"
  end.

(** A thrown value.  [Error] is [new Error(message)] of the source;
    [TypeError] and [SyntaxError] are raised by the engine;
    [SystemError] is a rejection of [fs/promises] with its [code]. *)
Inductive js_error : Type :=
| Error (message : string)
| TypeError (message : string)
| SyntaxError (message : string)
| SystemError (code message : string)
| Fault (kind : fault).

(** [error.message]. *)
Definition message (e : js_error) : string :=
  match e with
  | Error m | TypeError m | SyntaxError m | SystemError _ m => m
  | Fault k => fault_name k
  end.

(** [error.code === c]. *)
Definition has_code (e : js_error) (c : string) : bool :=
  match e with
  | SystemError code _ => String.eqb code c
  | _ => false
  end.

Inductive outcome (A : Type) : Type :=
| Returned (a : A)
| Thrown (e : js_error).
Arguments Returned {A} a.
Arguments Thrown {A} e.

Definition bind {A B : Type} (m : outcome A) (k : A -> outcome B) : outcome B :=
  match m with
  | Returned a => k a
  | Thrown e => Thrown e
  end.

Notation "x <- m ;; k" := (bind m (fun x => k))
  (at level 61, m at next level, right associativity).

(** [try { body } catch (error) { handler }]. *)
Definition try_catch {A : Type} (body : outcome A) (handler : js_error -> outcome A)
  : outcome A :=
  match body with
  | Returned a => Returned a
  | Thrown e => handler e
  end.

(** [xs.map(f)] for an [f] that may throw: stops at the first throw. *)
Fixpoint map_throwing {A B : Type} (f : A -> outcome B) (l : list A) : outcome (list B) :=
  match l with
  | [] => Returned []
  | x :: l' => y <- f x ;; ys <- map_throwing f l' ;; Returned (y :: ys)
  end.

(** [v[k]] and [v.k]: a TypeError on [null] and [undefined]. *)
Definition get (v : jsval) (k : string) : outcome jsval :=
  match v with
  | None =>
      Thrown (TypeError ("Cannot read properties of undefined (reading '" ++ k ++ "')"))
  | Some JNull =>
      Thrown (TypeError ("Cannot read properties of null (reading '" ++ k ++ "')"))
  | Some x => Returned (own_property x k)
  end.

(** [v.map(f)], where [what] is the source text of [v]. *)
Definition js_map {B : Type} (what : string) (v : jsval) (f : json -> outcome B)
  : outcome (list B) :=
  match v with
  | Some (JArr items) => map_throwing f items
  | None =>
      Thrown (TypeError "Cannot read properties of undefined (reading 'map')")
  | Some JNull =>
      Thrown (TypeError "Cannot read properties of null (reading 'map')")
  | Some _ => Thrown (TypeError (what ++ ".map is not a function"))
  end.

(** The value every tool returns: [{content: [{type, text}]}]. *)
Record content_item : Type := { type : string; text : string }.
Record result : Type := { content : list content_item }.

Definition text_result (t : string) : result :=
  {| content := [ {| type := "text"; text := t |} ] |}.

(** String concatenation of the pieces of a template literal. *)
Definition cat (pieces : list string) : string := String.concat "" pieces.

(** [v.toUpperCase()], where [what] is the source text of [v]. *)
Definition js_toUpperCase (what : string) (v : jsval) : outcome string :=
  match v with
  | Some (JStr s) => Returned (toUpperCase s)
  | None =>
      Thrown (TypeError "Cannot read properties of undefined (reading 'toUpperCase')")
  | Some JNull =>
      Thrown (TypeError "Cannot read properties of null (reading 'toUpperCase')")
  | Some _ => Thrown (TypeError (what ++ ".toUpperCase is not a function"))
  end.

(** [v.replace(pattern, replacement)], where [what] is the source text of [v]. *)
Definition js_replace (what : string) (v : jsval) (pattern replacement : string)
  : outcome string :=
  match v with
  | Some (JStr s) => Returned (replace pattern replacement s)
  | None =>
      Thrown (TypeError "Cannot read properties of undefined (reading 'replace')")
  | Some JNull =>
      Thrown (TypeError "Cannot read properties of null (reading 'replace')")
  | Some _ => Thrown (TypeError (what ++ ".replace is not a function"))
  end.

(** ** Recorded data (specification, section 3) *)

Record SelectorDescriptor : Type := {
  role : string;
  accessibleName : string;
  textHint : option string;
  ordinal : nat
}.

Record Step : Type := {
  index : nat;
  tool : string;
  target : option SelectorDescriptor;
  arguments : list (string * json);
  description : string
}.

Record Workflow : Type := {
  wf_name : string;
  wf_description : string;
  wf_steps : list Step;
  successCriteria : list string;
  notes : list string
}.

(** The snapshot index maps an ephemeral reference to the descriptor of
    its node. *)
Definition SnapshotIndex : Type := list (string * SelectorDescriptor).

Record session : Type := {
  s_name : string;
  s_steps : list Step;
  s_snapshot : option SnapshotIndex
}.

Inductive recorder_state : Type :=
| Idle
| Active (s : session).

(** ** The world the server runs in *)

(** The text of a file, kept as what [JSON.parse] makes of it. *)
Inductive file_text : Type :=
| Json (v : json)
| NotJson (syntax_error : string).

(** What [readFile] finds at a directory entry. *)
Inductive file : Type :=
| File (data : file_text)
| Unreadable (code message : string).

Record world : Type := {
  __dirname : string;
  (** [credentials.json], when it exists *)
  credentials_file : option file;
  (** the entries of [workflows/] in [readdir] order, when it exists *)
  workflows : option (list (string * file));
  recorder : recorder_state
}.

(** The two places the server reads from. *)
Inductive path : Type :=
| CREDENTIALS_FILE
| WORKFLOWS_DIR
| in_WORKFLOWS_DIR (name : string).

Definition path_string (w : world) (p : path) : string :=
  match p with
  | CREDENTIALS_FILE => path_join (__dirname w) "credentials.json"
  | WORKFLOWS_DIR => path_join (__dirname w) "workflows"
  | in_WORKFLOWS_DIR name => path_join (path_join (__dirname w) "workflows") name
  end.

Definition system_error (code what syscall target : string) : js_error :=
  SystemError code (code ++ ": " ++ what ++ ", " ++ syscall ++ " '" ++ target ++ "'").

Definition lookup_file (w : world) (p : path) : option file :=
  match p with
  | CREDENTIALS_FILE => credentials_file w
  | WORKFLOWS_DIR => None
  | in_WORKFLOWS_DIR name =>
      match workflows w with
      | Some entries => assoc name entries
      | None => None
      end
  end.

(** [await readFile(p, 'utf-8')]. *)
Definition readFile (w : world) (p : path) : outcome file_text :=
  match p with
  | WORKFLOWS_DIR =>
      match workflows w with
      | Some _ =>
          Thrown (system_error "EISDIR" "illegal operation on a directory" "read"
                               (path_string w p))
      | None =>
          Thrown (system_error "ENOENT" "no such file or directory" "open"
                               (path_string w p))
      end
  | _ =>
      match lookup_file w p with
      | Some (File data) => Returned data
      | Some (Unreadable code msg) => Thrown (SystemError code msg)
      | None =>
          Thrown (system_error "ENOENT" "no such file or directory" "open"
                               (path_string w p))
      end
  end.

(** [await readdir(join(__dirname, 'workflows'))]. *)
Definition readdir (w : world) : outcome (list string) :=
  match workflows w with
  | Some entries => Returned (map fst entries)
  | None =>
      Thrown (system_error "ENOENT" "no such file or directory" "scandir"
                           (path_string w WORKFLOWS_DIR))
  end.

Definition JSON_parse (data : file_text) : outcome json :=
  match data with
  | Json v => Returned v
  | NotJson m => Thrown (SyntaxError m)
  end.

(** ** Credentials management *)

Definition credentials_format_help (w : world) : string :=
  cat [ "Credentials file not found at: "; path_string w CREDENTIALS_FILE; nl; nl;
        "Create credentials.json with format:"; nl;
        "{"; nl;
        "  "; q "site-name"; ": {"; nl;
        "    "; q "username"; ": "; q "user@example.com"; ",  // or ";
                q "email"; ": "; q "user@example.com"; nl;
        "    "; q "password"; ": "; q "password"; ","; nl;
        "    "; q "loginUrl"; ": "; q "https://example.com/login"; ","; nl;
        "    "; q "notes"; ": "; q "Optional notes"; nl;
        "  }"; nl;
        "}" ].

Definition no_credentials_found (site : jsval) (credentials : json) : js_error :=
  Error (cat [ "No credentials found for: "; ToString site; nl; nl;
               "Available sites:"; nl;
               join nl (map (fun s => "  - " ++ s) (Object_keys credentials)) ]).

Definition getLoginCredentials (w : world) (site : jsval) : outcome result :=
  try_catch
    (data <- readFile w CREDENTIALS_FILE ;;
     credentials <- JSON_parse data ;;
     entry <- get (Some credentials) (ToString site) ;;
     if negb (truthy entry) then Thrown (no_credentials_found site credentials)
     else
       entry_username <- get entry "username" ;;
       entry_email <- get entry "email" ;;
       let username := js_or entry_username entry_email in
       let fieldLabel := if truthy entry_username then "Username" else "Email" in
       password <- get entry "password" ;;
       entry_notes <- get entry "notes" ;;
       Returned (text_result (cat
         [ "# Login Credentials: "; ToString site; nl; nl;
           "**"; fieldLabel; ":** "; ToString username; nl;
           "**Password:** "; ToString password; nl;
           "**Notes:** "; ToString (js_or entry_notes (Some (JStr "N/A"))); nl; nl;
           "**Usage:**"; nl;
           "1. Navigate to login page"; nl;
           "2. Use browser_type to enter username/email: "; ToString username; nl;
           "3. Use browser_type to enter password"; nl;
           "4. Click submit/login button"; nl; nl;
           "**Security Note:** Keep credentials.json private and never commit to git!" ])))
    (fun error =>
       if has_code error "ENOENT" then Thrown (Error (credentials_format_help w))
       else Thrown (Error ("Failed to get credentials: " ++ message error))).

Definition credentials_sample (site : jsval) (username_line : string) : string :=
  cat [ "{"; nl;
        "  "; q (ToString site); ": {"; nl;
        "    "; q "username"; ": "; q "..."; username_line; nl;
        "    "; q "password"; ": "; q "..."; ","; nl;
        "    "; q "loginUrl"; ": "; q ("https://www." ++ ToString site ++ ".com/login"); nl;
        "  }"; nl;
        "}" ].

Definition no_username_found (site : jsval) : js_error :=
  Error (cat [ "No username/email found in credentials for "; ToString site; "."; nl; nl;
               "Please add "; q "username"; " or "; q "email"; " to credentials.json:"; nl;
               credentials_sample site (cat [ ",  // or "; q "email"; ": "; q "..." ]) ]).

Definition no_loginUrl_configured (site : jsval) : js_error :=
  Error (cat [ "No loginUrl configured for "; ToString site; "."; nl; nl;
               "Please add "; q "loginUrl"; " to credentials.json:"; nl;
               credentials_sample site "," ]).

(** A fenced JSON sample of the login instructions. *)
Definition fenced (body : list string) : list string :=
  [ "```json"; nl ] ++ body ++ [ "```"; nl ].

Definition tool_call_sample (tool_name : string) (args : list string) : list string :=
  fenced ([ "{"; nl;
            "  "; q "tool"; ": "; q tool_name; ","; nl ] ++ args ++
          [ "}"; nl ]).

(** The block of the login instructions headed [### Step 4]. *)
Definition step4_enter_password (password : jsval) : list string :=
  [ "### Step 4: Enter Password"; nl ] ++
  tool_call_sample "browser_type"
    [ "  "; q "arguments"; ": {"; nl;
      "    "; q "element"; ": "; q "Password textbox"; ","; nl;
      "    "; q "ref"; ": "; q "{{PASSWORD_REF}}"; ","; nl;
      "    "; q "text"; ": "; q (ToString password); ","; nl;
      "    "; q "submit"; ": false"; nl;
      "  }"; nl ] ++
  [ nl ].

Definition credentials_summary (username loginUrl : jsval) : list string :=
  [ "## Credentials Retrieved:"; nl;
    "- Username/Email: "; ToString username; nl;
    "- Password: [REDACTED]"; nl;
    "- Login URL: "; ToString loginUrl; nl; nl ].

Definition login_instructions (SITE : string) (username password loginUrl : jsval)
  : list string :=
  [ "# Login to "; SITE; nl; nl ] ++
  credentials_summary username loginUrl ++
  [ "## Login Instructions:"; nl;
    "Follow these steps to complete login:"; nl; nl;
    "**Important:** Look for fields labeled "; q "username"; ", "; q "email"; ", ";
       q "user"; ", or "; q "login"; " in the snapshot."; nl;
    "Use the provided credentials regardless of the field label."; nl; nl;
    "### Step 1: Navigate to Login Page"; nl ] ++
  tool_call_sample "browser_navigate"
    [ "  "; q "arguments"; ": {"; nl;
      "    "; q "url"; ": "; q (ToString loginUrl); nl;
      "  }"; nl ] ++
  [ nl;
    "### Step 2: Take Snapshot"; nl ] ++
  tool_call_sample "browser_snapshot" [ "  "; q "arguments"; ": {}"; nl ] ++
  [ "Find refs for username/email textbox, password textbox, and login/signin button.";
    nl; nl;
    "### Step 3: Enter Username/Email"; nl;
    "Use the username: "; ToString username; nl ] ++
  tool_call_sample "browser_type"
    [ "  "; q "arguments"; ": {"; nl;
      "    "; q "element"; ": "; q "Username/Email textbox"; ","; nl;
      "    "; q "ref"; ": "; q "{{USERNAME_EMAIL_REF}}"; ","; nl;
      "    "; q "text"; ": "; q (ToString username); ","; nl;
      "    "; q "submit"; ": false"; nl;
      "  }"; nl ] ++
  [ "Note: The field might be labeled as "; q "username"; ", "; q "email"; ", ";
       q "user"; ", or "; q "login"; " - use whichever appears in the snapshot."; nl; nl ] ++
  step4_enter_password password ++
  [ "### Step 5: Click Login Button"; nl ] ++
  tool_call_sample "browser_click"
    [ "  "; q "arguments"; ": {"; nl;
      "    "; q "element"; ": "; q "Sign in button"; ","; nl;
      "    "; q "ref"; ": "; q "{{LOGIN_BUTTON_REF}}"; nl;
      "  }"; nl ] ++
  [ nl;
    "### Step 6: Verify Login Success"; nl ] ++
  tool_call_sample "browser_snapshot" [ "  "; q "arguments"; ": {}"; nl ] ++
  [ "Check the snapshot to confirm you're logged in (look for user name, account menu, or ";
       q "Sign Out"; " link)."; nl; nl;
    "---"; nl; nl;
    "**Note:** Replace {{EMAIL_REF}}, {{PASSWORD_REF}}, and {{LOGIN_BUTTON_REF}} with actual refs from Step 2 snapshot.";
       nl; nl;
    "**Security:** Credentials are retrieved from secure storage. Never log passwords." ].

Definition loginToSite (w : world) (site : jsval) : outcome result :=
  try_catch
    (data <- readFile w CREDENTIALS_FILE ;;
     credentials <- JSON_parse data ;;
     entry <- get (Some credentials) (ToString site) ;;
     if negb (truthy entry) then Thrown (no_credentials_found site credentials)
     else
       entry_username <- get entry "username" ;;
       entry_email <- get entry "email" ;;
       let username := js_or entry_username entry_email in
       password <- get entry "password" ;;
       loginUrl <- get entry "loginUrl" ;;
       if negb (truthy username) then Thrown (no_username_found site)
       else if negb (truthy loginUrl) then Thrown (no_loginUrl_configured site)
       else
         SITE <- js_toUpperCase "site" site ;;
         Returned (text_result (cat (login_instructions SITE username password loginUrl))))
    (fun error => Thrown (Error ("Failed to prepare login: " ++ message error))).

(** ** Workflow tools *)

(** [JSON.stringify(v, null, 2)] inside a template literal. *)
Definition stringify_value (v : jsval) : string :=
  match v with
  | Some x => JSON_stringify x
  | None => "undefined"
  end.

(** The arrow function [workflowFetch] maps over [workflow.steps]. *)
Definition fetch_step (step : json) : outcome string :=
  step_step <- get (Some step) "step" ;;
  step_description <- get (Some step) "description" ;;
  step_tool <- get (Some step) "tool" ;;
  step_arguments <- get (Some step) "arguments" ;;
  step_note <- get (Some step) "note" ;;
  Returned (cat
    [ "### Step "; ToString step_step; ": "; ToString step_description; nl;
      "- **Tool:** `"; ToString step_tool; "`"; nl;
      "- **Arguments:** ```json"; nl;
      stringify_value (js_or step_arguments (Some (JObj []))); nl; "```"; nl;
      (if truthy step_note then cat [ "- **Note:** "; ToString step_note; nl ] else "");
      nl ]).

Definition bullet (x : json) : outcome string := Returned ("- " ++ json_ToString x).

(** The text [workflowFetch] builds from the parsed document. *)
Definition fetch_text (workflow : json) : outcome string :=
  name <- get (Some workflow) "name" ;;
  workflow_description <- get (Some workflow) "description" ;;
  workflow_steps <- get (Some workflow) "steps" ;;
  steps_length <- get workflow_steps "length" ;;
  rendered <- js_map "workflow.steps" workflow_steps fetch_step ;;
  workflow_successCriteria <- get (Some workflow) "successCriteria" ;;
  criteria <- js_map "(workflow.successCriteria || [])"
                     (js_or workflow_successCriteria (Some (JArr []))) bullet ;;
  workflow_notes <- get (Some workflow) "notes" ;;
  noted <- js_map "(workflow.notes || [])"
                  (js_or workflow_notes (Some (JArr []))) bullet ;;
  Returned (cat
    [ "# Workflow: "; ToString name; nl; nl;
      "**Description:** "; ToString workflow_description; nl; nl;
      "**Steps:** "; ToString steps_length; nl; nl;
      "## Workflow Steps"; nl; nl;
      join "" rendered;
      nl; "## Success Criteria"; nl; nl;
      join nl criteria;
      nl; nl; "## Implementation Notes"; nl; nl;
      join nl noted;
      nl; nl; "---"; nl; nl;
      "**To execute this workflow:**"; nl;
      "1. Take snapshots to find current element refs"; nl;
      "2. Execute each step using the Playwright browser tools"; nl;
      "3. Adapt refs (like {{SEARCH_INPUT_REF}}) based on current page"; nl;
      "4. Verify success criteria at the end"; nl; nl;
      "**Full workflow JSON:**"; nl; "```json"; nl;
      JSON_stringify workflow; nl; "```" ]).

(** The names [workflowFetch] collects for its error message. *)
Definition available_workflows (files : list string) : list string :=
  map (replace ".json" "") (filter (fun f => endsWith f ".json") files).

Definition workflow_not_found_listing (workflowName : jsval) (files : list string)
  : js_error :=
  Error (cat [ "Workflow not found: "; ToString workflowName; nl; nl;
               "Available workflows:"; nl;
               join nl (map (fun x => "  - " ++ x) (available_workflows files)) ]).

Definition workflowFetch (w : world) (workflowName : jsval) : outcome result :=
  let workflowPath := in_WORKFLOWS_DIR (ToString workflowName ++ ".json") in
  try_catch
    (data <- readFile w workflowPath ;;
     workflow <- JSON_parse data ;;
     t <- fetch_text workflow ;;
     Returned (text_result t))
    (fun error =>
       if has_code error "ENOENT" then
         try_catch
           (files <- readdir w ;;
            Thrown (workflow_not_found_listing workflowName files))
           (fun _ => Thrown (Error ("Workflow not found: " ++ ToString workflowName)))
       else Thrown (Error ("Failed to fetch workflow: " ++ message error))).

(** One element of the array [workflowList] builds. *)
Record listing : Type := {
  l_name : jsval;
  l_description : jsval;
  l_steps : jsval;
  l_file : string
}.

Definition degraded (file : string) : listing :=
  {| l_name := Some (JStr (replace ".json" "" file));
     l_description := Some (JStr "Error loading workflow");
     l_steps := Some (JNum 0);
     l_file := file |}.

(** The arrow function [workflowList] maps over the [.json] files. *)
Definition list_file (w : world) (file : string) : outcome listing :=
  try_catch
    (data <- readFile w (in_WORKFLOWS_DIR file) ;;
     workflow <- JSON_parse data ;;
     name <- get (Some workflow) "name" ;;
     workflow_description <- get (Some workflow) "description" ;;
     workflow_steps <- get (Some workflow) "steps" ;;
     steps_length <- get workflow_steps "length" ;;
     Returned {| l_name := name;
                 l_description := workflow_description;
                 l_steps := steps_length;
                 l_file := file |})
    (fun _ => Returned (degraded file)).

(** The array [workflows] of [workflowList]. *)
Definition list_entries (w : world) : outcome (list listing) :=
  files <- readdir w ;;
  let workflowFiles := filter (fun f => endsWith f ".json") files in
  map_throwing (list_file w) workflowFiles.

(** The arrow function [workflowList] maps over [workflows], with its index. *)
Definition list_item (iw : nat * listing) : outcome string :=
  let (i, w) := iw in
  fetch_name <- js_replace "w.name" (l_name w)
                           "rei-hiking-shoes-purchase" "rei-hiking-shoes" ;;
  Returned (cat
    [ "## "; decimal_nat (i + 1); ". "; ToString (l_name w); nl;
      "- **Description:** "; ToString (l_description w); nl;
      "- **Steps:** "; ToString (l_steps w); nl;
      "- **File:** `"; l_file w; "`"; nl;
      nl; "To use: `workflow_fetch("; q fetch_name; ")`"; nl ]).

Definition list_text (entries : list listing) : outcome string :=
  items <- map_throwing list_item (combine (seq 0 (List.length entries)) entries) ;;
  Returned (cat
    [ "# Available Workflows"; nl; nl;
      "Found "; decimal_nat (List.length entries); " workflow(s):"; nl; nl;
      join nl items ]).

Definition workflowList (w : world) : outcome result :=
  try_catch
    (entries <- list_entries w ;;
     t <- list_text entries ;;
     Returned (text_result t))
    (fun error => Thrown (Error ("Failed to list workflows: " ++ message error))).

(** ** The recorder module and the store behind it

    [server.js] imports [recorder] from [tools/workflow-recorder.js],
    which is not among the sources.  The server calls
    [recorder.startRecording], [recorder.isRecording],
    [recorder.saveWorkflow], [recorder.generateWorkflow] and the five
    [recorder.record*] operations. *)

(** Modelled from the spec: [recorder.isRecording] of the absent
    recorder module; the session is active or idle. *)
Definition isRecording (r : recorder_state) : bool :=
  match r with
  | Active _ => true
  | Idle => false
  end.

(** Modelled from the spec: [recorder.startRecording] of the absent
    recorder module, the spec's [start(name)]: fails with
    AlreadyRecordingError if a session is active; otherwise goes from
    idle to active, initializes an empty step sequence, stores the name. *)
Definition startRecording (name : jsval) (r : recorder_state)
  : outcome unit * recorder_state :=
  match r with
  | Active _ => (Thrown (Fault AlreadyRecordingError), r)
  | Idle => (Returned tt,
             Active {| s_name := ToString name; s_steps := []; s_snapshot := None |})
  end.

(** Modelled from the spec: [recorder.generateWorkflow] of the absent
    recorder module: builds a Workflow from the session, the description
    defaulted from the name (the server hands the recorder no
    description).  The spec does not say what an idle recorder yields;
    the workflow of an empty session is taken, and no statement below
    rests on it. *)
Definition generateWorkflow (r : recorder_state) : Workflow :=
  match r with
  | Active s =>
      {| wf_name := s_name s; wf_description := s_name s; wf_steps := s_steps s;
         successCriteria := []; notes := [] |}
  | Idle =>
      {| wf_name := ""; wf_description := ""; wf_steps := [];
         successCriteria := []; notes := [] |}
  end.

Definition selector_to_json (d : SelectorDescriptor) : json :=
  JObj ([ ("role", JStr (role d)); ("accessibleName", JStr (accessibleName d)) ] ++
        match textHint d with
        | Some t => [ ("textHint", JStr t) ]
        | None => []
        end ++
        [ ("ordinal", JNum (Z.of_nat (ordinal d))) ]).

(** Modelled from the spec: the persisted form of a Step (workflow
    document format), [step] being the index; the selector is kept
    under [target]. *)
Definition step_to_json (s : Step) : json :=
  JObj ([ ("step", JNum (Z.of_nat (index s)));
          ("tool", JStr (tool s));
          ("description", JStr (description s));
          ("arguments", JObj (arguments s)) ] ++
        match target s with
        | Some d => [ ("target", selector_to_json d) ]
        | None => []
        end).

(** Modelled from the spec: the persisted form of a Workflow (workflow
    document format). *)
Definition workflow_to_json (wf : Workflow) : json :=
  JObj [ ("name", JStr (wf_name wf));
         ("description", JStr (wf_description wf));
         ("steps", JArr (map step_to_json (wf_steps wf)));
         ("successCriteria", JArr (map JStr (successCriteria wf)));
         ("notes", JArr (map JStr (notes wf))) ].

(** Writing an entry of a directory: an existing entry of that name is
    overwritten in place, a new one comes last. *)
Fixpoint put {A : Type} (k : string) (x : A) (l : list (string * A)) : list (string * A) :=
  match l with
  | [] => [ (k, x) ]
  | (k', y) :: l' => if String.eqb k' k then (k, x) :: l' else (k', y) :: put k x l'
  end.

Definition set_workflows (w : world) (entries : list (string * file)) : world :=
  {| __dirname := __dirname w; credentials_file := credentials_file w;
     workflows := Some entries; recorder := recorder w |}.

Definition set_recorder (w : world) (r : recorder_state) : world :=
  {| __dirname := __dirname w; credentials_file := credentials_file w;
     workflows := workflows w; recorder := r |}.

(** Modelled from the spec: [save] of the Workflow Store, which the
    absent recorder module implements: serializes the Workflow under its
    name, overwrites any existing document of the same name, fails with
    PersistenceError on write failure (here: no storage directory). *)
Definition save (wf : Workflow) (w : world) : outcome string * world :=
  let file_name := wf_name wf ++ ".json" in
  match workflows w with
  | Some entries =>
      (Returned (path_string w (in_WORKFLOWS_DIR file_name)),
       set_workflows w (put file_name (File (Json (workflow_to_json wf))) entries))
  | None => (Thrown (Fault PersistenceError), w)
  end.

(** Modelled from the spec: [recorder.saveWorkflow] of the absent
    recorder module, the spec's [stop()] and the save that follows it:
    fails with NotRecordingError if idle, with EmptyRecordingError if
    the step sequence is empty; otherwise builds the Workflow, goes from
    active to idle and persists the Workflow, returning its location. *)
Definition saveWorkflow (w : world) : outcome string * world :=
  match recorder w with
  | Idle => (Thrown (Fault NotRecordingError), w)
  | Active s =>
      match s_steps s with
      | [] => (Thrown (Fault EmptyRecordingError), w)
      | _ :: _ => save (generateWorkflow (recorder w)) (set_recorder w Idle)
      end
  end.

(** The five recording operations of the absent recorder module.  The
    server only forwards to them, so they are kept as an interface:
    each takes the recorder from one state to the next, or throws. *)
Class RecordingOperations : Type := {
  recordNavigate : jsval -> recorder_state -> outcome unit * recorder_state;
  recordClick : jsval -> jsval -> recorder_state -> outcome unit * recorder_state;
  recordType :
    jsval -> jsval -> jsval -> jsval -> recorder_state -> outcome unit * recorder_state;
  recordSelectOption :
    jsval -> jsval -> jsval -> recorder_state -> outcome unit * recorder_state;
  recordSnapshot : jsval -> recorder_state -> outcome unit * recorder_state
}.

(** ** Recording tools *)

(** A computation that may change the world: the recorder's session
    and, through [saveWorkflow], the workflow directory. *)
Definition action (A : Type) : Type := world -> outcome A * world.

Definition and_then {A B : Type} (m : action A) (k : A -> action B) : action B :=
  fun w =>
    match m w with
    | (Returned a, w') => k a w'
    | (Thrown e, w') => (Thrown e, w')
    end.

Notation "x <~ m ;; k" := (and_then m (fun x => k))
  (at level 61, m at next level, right associativity).

Definition now {A : Type} (o : outcome A) : action A := fun w => (o, w).

(** A computation that only reads the world. *)
Definition reading {A : Type} (f : world -> outcome A) : action A :=
  fun w => (f w, w).

(** A call on the [recorder] object. *)
Definition on_recorder {A : Type} (f : recorder_state -> outcome A * recorder_state)
  : action A :=
  fun w => let (o, r) := f (recorder w) in (o, set_recorder w r).

Definition workflowRecordStart (name description : jsval) : action result :=
  _ <~ on_recorder (startRecording name) ;;
  now (Returned (text_result (cat
    [ "📹 **Recording Started**"; nl; nl;
      "Workflow: "; ToString name; nl;
      "Description: ";
         ToString (js_or description (Some (JStr "Auto-generated workflow"))); nl; nl;
      "**What happens now:**"; nl;
      "- All browser actions will be recorded"; nl;
      "- Refs will be converted to semantic selectors automatically"; nl;
      "- Use `workflow_record_stop()` when done"; nl; nl;
      "**Tip:** Perform the actions you want to automate now!" ]))).

Definition not_recording_text : string :=
  cat [ "❌ **Not Recording**"; nl; nl;
        "No workflow recording in progress. Use `workflow_record_start(name)` to start." ].

Definition recording_stopped_text (workflow : Workflow) (filePath : string) : string :=
  cat [ "⏹️  **Recording Stopped**"; nl; nl;
        "Workflow: "; wf_name workflow; nl;
        "Steps recorded: "; decimal_nat (List.length (wf_steps workflow)); nl;
        "Saved to: "; filePath; nl; nl;
        "**Steps:**"; nl;
        join nl (map (fun s => cat [ decimal_nat (index s); ". "; description s ])
                     (wf_steps workflow));
        nl; nl; "**To use this workflow:**"; nl;
        "`workflow_fetch("; q (wf_name workflow); ")`"; nl; nl;
        "**Workflow JSON:**"; nl; "```json"; nl;
        JSON_stringify (workflow_to_json workflow); nl; "```" ].

Definition workflowRecordStop : action result :=
  fun w =>
    if negb (isRecording (recorder w)) then
      (Returned (text_result not_recording_text), w)
    else
      (filePath <~ saveWorkflow ;;
       fun w' =>
         let workflow := generateWorkflow (recorder w') in
         (Returned (text_result (recording_stopped_text workflow filePath)), w')) w.

(** [action === s]. *)
Definition is_string (v : jsval) (s : string) : bool :=
  match v with
  | Some (JStr x) => String.eqb x s
  | _ => false
  end.

Definition workflowRecordAction `{RecordingOperations} (act params : jsval)
  : action unit :=
  fun w =>
    if negb (isRecording (recorder w)) then (Returned tt, w)
    else if is_string act "navigate" then
      (url <~ now (get params "url") ;;
       on_recorder (recordNavigate url)) w
    else if is_string act "click" then
      (element <~ now (get params "element") ;;
       ref <~ now (get params "ref") ;;
       on_recorder (recordClick element ref)) w
    else if is_string act "type" then
      (element <~ now (get params "element") ;;
       ref <~ now (get params "ref") ;;
       typed <~ now (get params "text") ;;
       submit <~ now (get params "submit") ;;
       on_recorder (recordType element ref typed submit)) w
    else if is_string act "select_option" then
      (element <~ now (get params "element") ;;
       ref <~ now (get params "ref") ;;
       values <~ now (get params "values") ;;
       on_recorder (recordSelectOption element ref values)) w
    else if is_string act "snapshot" then
      (snapshot <~ now (get params "snapshot") ;;
       on_recorder (recordSnapshot snapshot)) w
    else (Returned tt, w).

(** ** The tool dispatcher *)

(** An entry of the catalog the [tools/list] handler returns: the name
    and, of the input schema, the property names with their types and
    the required ones (the descriptions are free text, left out). *)
Record tool_declaration : Type := {
  tool_name : string;
  properties : list (string * string);
  required : list string
}.

(** The [ListToolsRequestSchema] handler. *)
Definition listTools : list tool_declaration :=
  [ {| tool_name := "login_to_site";
       properties := [ ("site", "string") ]; required := [ "site" ] |};
    {| tool_name := "get_login_credentials";
       properties := [ ("site", "string") ]; required := [ "site" ] |};
    {| tool_name := "workflow_fetch";
       properties := [ ("workflowName", "string") ]; required := [ "workflowName" ] |};
    {| tool_name := "workflow_list"; properties := []; required := [] |};
    {| tool_name := "workflow_record_start";
       properties := [ ("name", "string"); ("description", "string") ];
       required := [ "name" ] |};
    {| tool_name := "workflow_record_stop"; properties := []; required := [] |} ].

Definition unknown_tool (name : string) : js_error := Error ("Unknown tool: " ++ name).

(** The [CallToolRequestSchema] handler, on [request.params.name] and
    [request.params.arguments]. *)
Definition callTool (name : string) (args : jsval) : action result :=
  if String.eqb name "login_to_site" then
    site <~ now (get args "site") ;;
    reading (fun w => loginToSite w site)
  else if String.eqb name "get_login_credentials" then
    site <~ now (get args "site") ;;
    reading (fun w => getLoginCredentials w site)
  else if String.eqb name "workflow_fetch" then
    workflowName <~ now (get args "workflowName") ;;
    reading (fun w => workflowFetch w workflowName)
  else if String.eqb name "workflow_list" then
    reading workflowList
  else if String.eqb name "workflow_record_start" then
    args_name <~ now (get args "name") ;;
    args_description <~ now (get args "description") ;;
    workflowRecordStart args_name args_description
  else if String.eqb name "workflow_record_stop" then
    workflowRecordStop
  else now (Thrown (unknown_tool name)).

(** The names of the catalog. *)
Definition declared : list string := map tool_name listTools.

(** The six operations by tool name, each on the fields it takes from
    an arguments object: the routing that [callTool] is compared with. *)
Definition operations : list (string * (list (string * json) -> action result)) :=
  [ ("login_to_site",
     fun a => reading (fun w => loginToSite w (assoc "site" a)));
    ("get_login_credentials",
     fun a => reading (fun w => getLoginCredentials w (assoc "site" a)));
    ("workflow_fetch",
     fun a => reading (fun w => workflowFetch w (assoc "workflowName" a)));
    ("workflow_list", fun _ => reading workflowList);
    ("workflow_record_start",
     fun a => workflowRecordStart (assoc "name" a) (assoc "description" a));
    ("workflow_record_stop", fun _ => workflowRecordStop) ].

(** An error is [foreign] to the dispatcher when it is not the
    dispatcher's own "Unknown tool" error, whatever the tool name. *)
Definition foreign (e : js_error) : Prop := forall name, e <> unknown_tool name.

(** ** Where the conversions of the embedding are exact

    [ToString] above gives an object the text [[object Object]] and a
    number all its digits.  JavaScript does so unless an object has an
    own [toString] field (the conversion then throws a TypeError) or the
    number is beyond the safe integers, below 2^53 in size (it is then
    rounded, or printed with an exponent); a value is [plain] when
    neither occurs in it. *)
Fixpoint plain_json (v : json) : bool :=
  match v with
  | JNum n => (Z.abs n <? 2 ^ 53)%Z
  | JArr items => forallb plain_json items
  | JObj fields =>
      forallb (fun kv => match kv with
                         | (k, x) => negb (String.eqb k "toString") && plain_json x
                         end) fields
  | _ => true
  end.

Definition plain (v : jsval) : bool :=
  match v with
  | Some x => plain_json x
  | None => true
  end.

(** The fields of an object are taken to be listed once each, in
    enumeration order, as [JSON.parse] builds them.

    [workflowFetch] joins the name it is given to the directory of the
    store.  The embedding looks the joined name up among the entries of
    the directory, which is what the file system does for a name that
    can be a file name: no [/], no NUL, and with [.json] at most 255
    bytes. *)
Definition file_name_character (c : ascii) : bool :=
  negb (Ascii.eqb c "/") && negb (Ascii.eqb c (ascii_of_nat 0)).

Fixpoint all_characters (p : ascii -> bool) (s : string) : bool :=
  match s with
  | EmptyString => true
  | String c s' => p c && all_characters p s'
  end.

Definition names_a_file (v : jsval) : bool :=
  plain v && all_characters file_name_character (ToString v)
  && (String.length (ToString v) + 5 <=? 255)%nat.

(** The member names every object inherits from [Object.prototype];
    [own_property] does not find them. *)
Definition Object_prototype_members : list string :=
  [ "constructor"; "__defineGetter__"; "__defineSetter__"; "hasOwnProperty";
    "__lookupGetter__"; "__lookupSetter__"; "isPrototypeOf"; "propertyIsEnumerable";
    "toString"; "valueOf"; "__proto__"; "toLocaleString" ].

(** ** Sample states

    Concrete worlds, documents and sessions on which the statements
    below are instantiated. *)

(** A workflow directory that holds no document. *)
Definition empty_store : world :=
  {| __dirname := "/srv/custom-mcp-server"; credentials_file := None;
     workflows := Some []; recorder := Idle |}.

(** A world whose recorder is idle. *)
Definition idle_world : world :=
  {| __dirname := "/srv/custom-mcp-server"; credentials_file := None;
     workflows := Some []; recorder := Idle |}.

(** A session named [checkout] with one recorded step, and a world in
    the middle of it. *)
Definition checkout_session : session :=
  {| s_name := "checkout";
     s_steps := [ {| index := 1; tool := "navigate"; target := None;
                     arguments := [ ("url", JStr "https://shop.test/cart") ];
                     description := "Navigate to https://shop.test/cart" |} ];
     s_snapshot := None |}.

Definition recording_world : world :=
  {| __dirname := "/srv/custom-mcp-server"; credentials_file := None;
     workflows := Some []; recorder := Active checkout_session |}.

(** Recording operations that would be noticed: each one throws. *)
Definition throwing_operations : RecordingOperations :=
  {| recordNavigate := fun _ r => (Thrown (Fault UnresolvedReferenceError), r);
     recordClick := fun _ _ r => (Thrown (Fault UnresolvedReferenceError), r);
     recordType := fun _ _ _ _ r => (Thrown (Fault UnresolvedReferenceError), r);
     recordSelectOption := fun _ _ _ r => (Thrown (Fault UnresolvedReferenceError), r);
     recordSnapshot := fun _ r => (Thrown (Fault UnresolvedReferenceError), r) |}.

(** A valid workflow document of two steps. *)
Definition checkout_document : json :=
  JObj [ ("name", JStr "checkout");
         ("description", JStr "Check out the cart");
         ("steps",
          JArr [ JObj [ ("step", JNum 1); ("tool", JStr "browser_navigate");
                        ("description", JStr "Open the cart");
                        ("arguments", JObj [ ("url", JStr "https://shop.test/cart") ]) ];
                 JObj [ ("step", JNum 2); ("tool", JStr "browser_click");
                        ("description", JStr "Press Checkout");
                        ("arguments", JObj [ ("element", JStr "Checkout button") ]) ] ]) ].

Definition one_document_store : world :=
  {| __dirname := "/srv/custom-mcp-server"; credentials_file := None;
     workflows := Some [ ("checkout.json", File (Json checkout_document)) ];
     recorder := Idle |}.

(** A directory with one file that does not parse, one valid document
    and a file that is not a [.json] file. *)
Definition mixed_store : world :=
  {| __dirname := "/srv/custom-mcp-server"; credentials_file := None;
     workflows := Some [ ("broken.json", File (NotJson "Unexpected end of JSON input"));
                         ("checkout.json", File (Json checkout_document));
                         ("README.md", File (NotJson "Unexpected token #")) ];
     recorder := Idle |}.

(** The Workflow of the specification's example scenario. *)
Definition checkout_workflow : Workflow :=
  {| wf_name := "checkout";
     wf_description := "checkout";
     wf_steps :=
       [ {| index := 1; tool := "navigate"; target := None;
            arguments := [ ("url", JStr "https://shop.test/cart") ];
            description := "Navigate to https://shop.test/cart" |};
         {| index := 2; tool := "click";
            target := Some {| role := "button"; accessibleName := "Checkout";
                              textHint := None; ordinal := 0 |};
            arguments := [];
            description := "Click Checkout button" |} ];
     successCriteria := [];
     notes := [] |}.

(** A credentials store with one site, keyed by email. *)
Definition rei_credentials : list (string * json) :=
  [ ("rei", JObj [ ("email", JStr "hiker@example.com");
                   ("password", JStr "s3cret-Pa55");
                   ("loginUrl", JStr "https://www.rei.com/login") ]) ].

Definition credentials_world : world :=
  {| __dirname := "/srv/custom-mcp-server";
     credentials_file := Some (File (Json (JObj rei_credentials)));
     workflows := Some []; recorder := Idle |}.

(** A credentials store whose entries lack a field: [trail] has no
    password, [lodge] has no login URL, [camp] has neither a username
    nor an email; [5] is a key that only a number reaches. *)
Definition partial_credentials : list (string * json) :=
  [ ("trail", JObj [ ("username", JStr "walker");
                     ("loginUrl", JStr "https://trail.test/login") ]);
    ("lodge", JObj [ ("username", JStr "keeper"); ("password", JStr "k33p") ]);
    ("camp", JObj [ ("password", JStr "t3nt");
                    ("loginUrl", JStr "https://camp.test/login") ]);
    ("5", JObj [ ("username", JStr "five"); ("password", JStr "f1ve");
                 ("loginUrl", JStr "https://five.test/login") ]) ].

Definition partial_credentials_world : world :=
  {| __dirname := "/srv/custom-mcp-server";
     credentials_file := Some (File (Json (JObj partial_credentials)));
     workflows := Some []; recorder := Idle |}.

(** A world with no [workflows/] directory. *)
Definition no_directory_world : world :=
  {| __dirname := "/srv/custom-mcp-server"; credentials_file := None;
     workflows := None; recorder := Idle |}.

(** A document with steps but without a name, and one without optional
    fields whose steps are not all objects. *)
Definition nameless_document : json :=
  JObj [ ("description", JStr "No name given");
         ("steps", JArr [ JObj [ ("step", JNum 1); ("tool", JStr "browser_snapshot") ] ]) ].

Definition terse_document : json :=
  JObj [ ("name", JStr "terse");
         ("steps", JArr [ JStr "look around"; JObj [ ("step", JNum 2) ] ]) ].

(** A directory where a file name and the name inside its document
    differ, with a nameless document, a document without steps, a
    subdirectory named like a document, and a file that is not JSON. *)
Definition untidy_store : world :=
  {| __dirname := "/srv/custom-mcp-server"; credentials_file := None;
     workflows :=
       Some [ ("cart.json", File (Json checkout_document));
              ("terse.json", File (Json terse_document));
              ("stepless.json", File (Json (JObj [ ("name", JStr "stepless") ])));
              ("folder.json", Unreadable "EISDIR"
                                "EISDIR: illegal operation on a directory, read");
              ("broken.json", File (NotJson "Unexpected end of JSON input")) ];
     recorder := Idle |}.

Definition nameless_store : world :=
  {| __dirname := "/srv/custom-mcp-server"; credentials_file := None;
     workflows := Some [ ("checkout.json", File (Json checkout_document));
                         ("nameless.json", File (Json nameless_document)) ];
     recorder := Idle |}.

(** * Properties *)

(** ** Outcomes *)

Lemma try_catch_thrown {A : Type} (body : outcome A) (handler : js_error -> outcome A)
      (e : js_error) :
  try_catch body handler = Thrown e ->
  exists e0, body = Thrown e0 /\ handler e0 = Thrown e.
Proof.
  destruct body as [a | e0]; simpl; intros Hthrown.
  - discriminate.
  - exists e0. split; [reflexivity | exact Hthrown].
Qed.

Lemma get_thrown_is_TypeError (v : jsval) (k : string) (e : js_error) :
  get v k = Thrown e -> exists m, e = TypeError m.
Proof.
  destruct v as [[ | | | | | ] | ]; simpl; intros Hthrown;
    try discriminate; injection Hthrown as <-; eexists; reflexivity.
Qed.

Lemma get_object (fields : list (string * json)) (k : string) :
  get (Some (JObj fields)) k = Returned (assoc k fields).
Proof. reflexivity. Qed.

(** ** What each operation can throw *)

Lemma TypeError_foreign (m : string) : foreign (TypeError m).
Proof. intros name; discriminate. Qed.

Lemma Fault_foreign (k : fault) : foreign (Fault k).
Proof. intros name; discriminate. Qed.

Lemma get_foreign (v : jsval) (k : string) (e : js_error) :
  get v k = Thrown e -> foreign e.
Proof.
  intros Hthrown. destruct (get_thrown_is_TypeError _ _ _ Hthrown) as [m ->].
  apply TypeError_foreign.
Qed.

Lemma loginToSite_throws (w : world) (site : jsval) (e : js_error) :
  loginToSite w site = Thrown e ->
  exists m, e = Error ("Failed to prepare login: " ++ m).
Proof.
  unfold loginToSite. intros Hthrown.
  apply try_catch_thrown in Hthrown as (e0 & _ & Hhandler).
  injection Hhandler as <-. eexists; reflexivity.
Qed.

Lemma getLoginCredentials_throws (w : world) (site : jsval) (e : js_error) :
  getLoginCredentials w site = Thrown e ->
  e = Error (credentials_format_help w) \/
  exists m, e = Error ("Failed to get credentials: " ++ m).
Proof.
  unfold getLoginCredentials. intros Hthrown.
  apply try_catch_thrown in Hthrown as (e0 & _ & Hhandler).
  destruct (has_code e0 "ENOENT"); injection Hhandler as <-.
  - left; reflexivity.
  - right; eexists; reflexivity.
Qed.

Lemma workflowFetch_throws (w : world) (workflowName : jsval) (e : js_error) :
  workflowFetch w workflowName = Thrown e ->
  e = Error ("Workflow not found: " ++ ToString workflowName) \/
  exists m, e = Error ("Failed to fetch workflow: " ++ m).
Proof.
  unfold workflowFetch. intros Hthrown.
  apply try_catch_thrown in Hthrown as (e0 & _ & Hhandler).
  destruct (has_code e0 "ENOENT").
  - apply try_catch_thrown in Hhandler as (e1 & _ & Hinner).
    injection Hinner as <-. left; reflexivity.
  - injection Hhandler as <-. right; eexists; reflexivity.
Qed.

Lemma workflowList_throws (w : world) (e : js_error) :
  workflowList w = Thrown e ->
  exists m, e = Error ("Failed to list workflows: " ++ m).
Proof.
  unfold workflowList. intros Hthrown.
  apply try_catch_thrown in Hthrown as (e0 & _ & Hhandler).
  injection Hhandler as <-. eexists; reflexivity.
Qed.

Lemma startRecording_throws (name : jsval) (r r' : recorder_state) (e : js_error) :
  startRecording name r = (Thrown e, r') -> e = Fault AlreadyRecordingError /\ r' = r.
Proof.
  destruct r as [ | s]; simpl; intros Hthrown.
  - discriminate.
  - injection Hthrown as <- <-. split; reflexivity.
Qed.

Lemma set_recorder_same (w : world) : set_recorder w (recorder w) = w.
Proof. destruct w; reflexivity. Qed.

Lemma workflowRecordStart_throws (name description : jsval) (w w' : world) (e : js_error) :
  workflowRecordStart name description w = (Thrown e, w') ->
  e = Fault AlreadyRecordingError /\ w' = w.
Proof.
  unfold workflowRecordStart, and_then, on_recorder, now.
  destruct (startRecording name (recorder w)) as [[[] | e0] r'] eqn:Hstart;
    intros Hthrown.
  - discriminate.
  - injection Hthrown as <- <-.
    apply startRecording_throws in Hstart as [-> ->].
    split; [reflexivity | apply set_recorder_same].
Qed.

Lemma save_throws (wf : Workflow) (w w' : world) (e : js_error) :
  save wf w = (Thrown e, w') -> e = Fault PersistenceError.
Proof.
  unfold save. destruct (workflows w); intros Hthrown.
  - discriminate.
  - injection Hthrown as <- _. reflexivity.
Qed.

Lemma saveWorkflow_throws (w w' : world) (e : js_error) :
  saveWorkflow w = (Thrown e, w') -> exists k, e = Fault k.
Proof.
  unfold saveWorkflow. destruct (recorder w) as [ | s].
  - intros Hthrown; injection Hthrown as <- _. eexists; reflexivity.
  - destruct (s_steps s).
    + intros Hthrown; injection Hthrown as <- _. eexists; reflexivity.
    + intros Hthrown. apply save_throws in Hthrown. eexists; exact Hthrown.
Qed.

Lemma workflowRecordStop_throws (w w' : world) (e : js_error) :
  workflowRecordStop w = (Thrown e, w') -> exists k, e = Fault k.
Proof.
  unfold workflowRecordStop, and_then.
  destruct (negb (isRecording (recorder w))).
  - discriminate.
  - destruct (saveWorkflow w) as [[filePath | e0] w1] eqn:Hsave; intros Hthrown.
    + discriminate.
    + injection Hthrown as <- _. eapply saveWorkflow_throws; exact Hsave.
Qed.

Lemma String_eqb_false_of_not_In (name x : string) (l : list string) :
  ~ In name l -> In x l -> String.eqb name x = false.
Proof.
  intros Hnot Hin. destruct (String.eqb_spec name x) as [-> | Hne].
  - contradiction.
  - reflexivity.
Qed.

(** ** The tool dispatcher *)

Lemma callTool_declared_foreign (name : string) (args : jsval) (w w' : world)
      (e : js_error) :
  In name declared -> callTool name args w = (Thrown e, w') -> foreign e.
Proof.
  intros Hin Hcall. unfold declared in Hin; simpl in Hin.
  destruct Hin as [<- | [<- | [<- | [<- | [<- | [<- | []]]]]]];
    unfold callTool, and_then, now, reading in Hcall; simpl in Hcall.
  - destruct (get args "site") as [site | e0] eqn:Hget.
    + injection Hcall as Hop _. apply loginToSite_throws in Hop as [m ->].
      intros name; discriminate.
    + injection Hcall as <- _. eapply get_foreign; exact Hget.
  - destruct (get args "site") as [site | e0] eqn:Hget.
    + injection Hcall as Hop _.
      apply getLoginCredentials_throws in Hop as [-> | [m ->]];
        intros name; discriminate.
    + injection Hcall as <- _. eapply get_foreign; exact Hget.
  - destruct (get args "workflowName") as [workflowName | e0] eqn:Hget.
    + injection Hcall as Hop _.
      apply workflowFetch_throws in Hop as [-> | [m ->]];
        intros name; discriminate.
    + injection Hcall as <- _. eapply get_foreign; exact Hget.
  - injection Hcall as Hop _. apply workflowList_throws in Hop as [m ->].
    intros name; discriminate.
  - destruct (get args "name") as [args_name | e0] eqn:Hname.
    + destruct (get args "description") as [args_description | e1] eqn:Hdescription.
      * apply workflowRecordStart_throws in Hcall as [-> _]. apply Fault_foreign.
      * injection Hcall as <- _. eapply get_foreign; exact Hdescription.
    + injection Hcall as <- _. eapply get_foreign; exact Hname.
  - apply workflowRecordStop_throws in Hcall as [k ->]. apply Fault_foreign.
Qed.

Lemma callTool_undeclared (name : string) (args : jsval) (w : world) :
  ~ In name declared -> callTool name args w = (Thrown (unknown_tool name), w).
Proof.
  intros Hnot. unfold callTool.
  repeat (rewrite (String_eqb_false_of_not_In name _ declared Hnot);
          [ | unfold declared; simpl; tauto ]).
  reflexivity.
Qed.


(** C4.  A call fails with the dispatcher's "Unknown tool" error exactly
    when its name is not declared in the catalog that [listTools]
    returns.  The names of the catalog are exactly the names of the six
    operations, and a call with an arguments object runs the operation
    of its name, on the fields of the arguments that the operation
    takes, and nothing else; a name outside the catalog reaches no
    operation. *)
Theorem callTool_routes_exactly_the_catalog (name : string) (args : jsval) (w : world) :
  ((exists w', callTool name args w = (Thrown (unknown_tool name), w')) <->
   ~ In name (map tool_name listTools)) /\
  map fst operations = map tool_name listTools /\
  (forall a,
     callTool name (Some (JObj a)) w
       = match assoc name operations with
         | Some operation => operation a w
         | None => (Thrown (unknown_tool name), w)
         end).
Proof.
  split; [ | split].
  - split.
    + intros [w' Hcall] Hin.
      exact (callTool_declared_foreign _ _ _ _ _ Hin Hcall name eq_refl).
    + intros Hnot. exists w. apply callTool_undeclared. exact Hnot.
  - reflexivity.
  - intros a.
    destruct (in_dec string_dec name declared) as [Hin | Hnot].
    + unfold declared in Hin; simpl in Hin.
      destruct Hin as [<- | [<- | [<- | [<- | [<- | [<- | []]]]]]]; reflexivity.
    + rewrite (callTool_undeclared name (Some (JObj a)) w Hnot).
      unfold operations; cbn [assoc].
      repeat (rewrite String.eqb_sym,
                (String_eqb_false_of_not_In name _ declared Hnot);
              [ | unfold declared; simpl; tauto ]).
      reflexivity.
Qed.

(** C1, refuted as stated.  The declared operation [workflow_fetch]
    raises an error on an empty store, and the call handler does not
    turn it into a returned result: the call itself ends in that thrown
    error. *)
Lemma callTool_does_not_catch :
  workflowFetch empty_store (Some (JStr "nonexistent"))
    = Thrown (Error "Workflow not found: nonexistent") /\
  callTool "workflow_fetch" (Some (JObj [ ("workflowName", JStr "nonexistent") ]))
           empty_store
    = (Thrown (Error "Workflow not found: nonexistent"), empty_store).
Proof. split; reflexivity. Qed.

(** C1, amended.  For every declared operation and every argument
    object, an error the invoked operation raises is not caught by the
    call handler: the call ends in that same thrown error, and in the
    state the operation left. *)
Theorem callTool_propagates_errors (a : list (string * json)) (w : world) (e : js_error) :
  let args := Some (JObj a) in
  (loginToSite w (assoc "site" a) = Thrown e ->
   callTool "login_to_site" args w = (Thrown e, w)) /\
  (getLoginCredentials w (assoc "site" a) = Thrown e ->
   callTool "get_login_credentials" args w = (Thrown e, w)) /\
  (workflowFetch w (assoc "workflowName" a) = Thrown e ->
   callTool "workflow_fetch" args w = (Thrown e, w)) /\
  (workflowList w = Thrown e ->
   callTool "workflow_list" args w = (Thrown e, w)) /\
  (forall w',
     workflowRecordStart (assoc "name" a) (assoc "description" a) w = (Thrown e, w') ->
     callTool "workflow_record_start" args w = (Thrown e, w')) /\
  (forall w',
     workflowRecordStop w = (Thrown e, w') ->
     callTool "workflow_record_stop" args w = (Thrown e, w')).
Proof.
  cbv zeta. unfold callTool, and_then, now, reading; simpl.
  repeat split.
  - intros ->; reflexivity.
  - intros ->; reflexivity.
  - intros ->; reflexivity.
  - intros ->; reflexivity.
  - intros w' Hstart; exact Hstart.
  - intros w' Hstop; exact Hstop.
Qed.

Lemma callTool_propagates_errors_witness :
  callTool "workflow_fetch" (Some (JObj [ ("workflowName", JStr "nonexistent") ]))
           empty_store
    = (Thrown (Error "Workflow not found: nonexistent"), empty_store).
Proof.
  apply (callTool_propagates_errors [ ("workflowName", JStr "nonexistent") ] empty_store
           (Error "Workflow not found: nonexistent")).
  reflexivity.
Defined.

(** ** The recording session *)

(** C2.  [workflow_record_stop] right after a [workflow_record_start]
    that succeeded (an idle recorder, a plain name and description),
    with no step recorded in between, fails with EmptyRecordingError,
    and the failed call leaves the world, the workflow directory
    included, as it was. *)
Theorem stop_right_after_start_is_empty (name description : jsval) (w : world) :
  plain name = true ->
  plain description = true ->
  recorder w = Idle ->
  exists started w1,
    workflowRecordStart name description w = (Returned started, w1) /\
    workflowRecordStop w1 = (Thrown (Fault EmptyRecordingError), w1) /\
    workflows w1 = workflows w.
Proof.
  intros _ _ Hidle.
  unfold workflowRecordStart, and_then, on_recorder, now. rewrite Hidle; simpl.
  eexists; eexists. split; [reflexivity | ]. split; reflexivity.
Qed.

Lemma stop_right_after_start_is_empty_witness :
  exists started w1,
    workflowRecordStart (Some (JStr "checkout")) None idle_world = (Returned started, w1) /\
    workflowRecordStop w1 = (Thrown (Fault EmptyRecordingError), w1) /\
    workflows w1 = workflows idle_world.
Proof.
  apply (stop_right_after_start_is_empty (Some (JStr "checkout")) None idle_world);
    reflexivity.
Defined.

(** C5, refuted as stated.  With no session active, [workflow_record_stop]
    does not fail: it returns a result, the text of which says that
    nothing is being recorded. *)
Lemma stop_when_idle_returns :
  workflowRecordStop idle_world = (Returned (text_result not_recording_text), idle_world) /\
  workflowRecordStop idle_world <> (Thrown (Fault NotRecordingError), idle_world).
Proof. split; [reflexivity | discriminate]. Qed.

(** C5, amended.  With no session active, [workflow_record_stop] raises
    no error: it returns the "Not Recording" text as an ordinary result
    and changes nothing. *)
Theorem workflowRecordStop_idle (w : world) :
  isRecording (recorder w) = false ->
  workflowRecordStop w = (Returned (text_result not_recording_text), w).
Proof.
  intros Hidle. unfold workflowRecordStop. rewrite Hidle. reflexivity.
Qed.

Lemma workflowRecordStop_idle_witness :
  workflowRecordStop idle_world = (Returned (text_result not_recording_text), idle_world).
Proof. apply (workflowRecordStop_idle idle_world). reflexivity. Defined.

(** C6.  [workflow_record_start] during an active session fails with
    AlreadyRecordingError and leaves the session, its name and its
    recorded steps, as it was. *)
Theorem start_while_active_fails (name description : jsval) (w : world) (s : session) :
  recorder w = Active s ->
  exists w',
    workflowRecordStart name description w = (Thrown (Fault AlreadyRecordingError), w') /\
    recorder w' = Active s /\
    w' = w.
Proof.
  intros Hactive. exists w.
  unfold workflowRecordStart, and_then, on_recorder, now. rewrite Hactive; simpl.
  rewrite <- Hactive, set_recorder_same. repeat split.
Qed.

Lemma start_while_active_fails_witness :
  exists w',
    workflowRecordStart (Some (JStr "other")) None recording_world
      = (Thrown (Fault AlreadyRecordingError), w') /\
    recorder w' = Active checkout_session /\
    w' = recording_world.
Proof.
  apply (start_while_active_fails (Some (JStr "other")) None recording_world
           checkout_session).
  reflexivity.
Defined.

(** C9.  While no session is active, an action notification of any
    kind, with any parameters, does nothing: [workflowRecordAction]
    returns without an error and without calling the recorder, so no
    step is appended and the recorder and the workflow store are as
    before, whatever the recording operations are. *)
Theorem workflowRecordAction_idle_is_noop (operations : RecordingOperations)
        (act params : jsval) (w : world) :
  isRecording (recorder w) = false ->
  workflowRecordAction act params w = (Returned tt, w).
Proof.
  intros Hidle. unfold workflowRecordAction. rewrite Hidle. reflexivity.
Qed.

Lemma workflowRecordAction_idle_is_noop_witness :
  @workflowRecordAction throwing_operations (Some (JStr "click")) None idle_world
    = (Returned tt, idle_world).
Proof.
  apply (workflowRecordAction_idle_is_noop throwing_operations
           (Some (JStr "click")) None idle_world).
  reflexivity.
Defined.

(** ** The workflow store: fetching a missing document *)

(** Whatever [readdir] does, the inner [try] of the ENOENT branch ends
    in its own [catch]: the error that lists the available workflows is
    thrown inside the [try] block and replaced there. *)
Lemma workflowFetch_missing (w : world) (workflowName : jsval) :
  lookup_file w (in_WORKFLOWS_DIR (ToString workflowName ++ ".json")) = None ->
  workflowFetch w workflowName
    = Thrown (Error ("Workflow not found: " ++ ToString workflowName)).
Proof.
  intros Hmissing. unfold workflowFetch, readFile. rewrite Hmissing. simpl.
  destruct (readdir w); reflexivity.
Qed.

(** C3, at a store that holds the one document [checkout.json].
    [workflow_list] reports the name [checkout]; fetching a name that is
    not stored fails with the bare "Workflow not found" message, and the
    message that enumerates [checkout], though built, is not the one
    thrown. *)
Theorem workflowFetch_not_found_drops_names :
  list_entries one_document_store
    = Returned [ {| l_name := Some (JStr "checkout");
                    l_description := Some (JStr "Check out the cart");
                    l_steps := Some (JNum 2);
                    l_file := "checkout.json" |} ] /\
  workflowFetch one_document_store (Some (JStr "nonexistent"))
    = Thrown (Error "Workflow not found: nonexistent") /\
  workflow_not_found_listing (Some (JStr "nonexistent")) [ "checkout.json" ]
    = Error (cat [ "Workflow not found: nonexistent"; nl; nl;
                   "Available workflows:"; nl; "  - checkout" ]).
Proof. repeat split; reflexivity. Qed.

(** ** The workflow store: listing *)

Lemma list_file_corrupt (w : world) (entries : list (string * file))
      (file_name syntax_error : string) :
  workflows w = Some entries ->
  assoc file_name entries = Some (File (NotJson syntax_error)) ->
  list_file w file_name = Returned (degraded file_name).
Proof.
  intros Hdir Hfile. unfold list_file, readFile, lookup_file.
  rewrite Hdir, Hfile. reflexivity.
Qed.

Lemma list_file_valid (w : world) (entries : list (string * file)) (file_name : string)
      (fields : list (string * json)) (name : string) (descr : jsval)
      (steps : list json) :
  workflows w = Some entries ->
  assoc file_name entries = Some (File (Json (JObj fields))) ->
  assoc "name" fields = Some (JStr name) ->
  assoc "description" fields = descr ->
  assoc "steps" fields = Some (JArr steps) ->
  list_file w file_name
    = Returned {| l_name := Some (JStr name);
                  l_description := descr;
                  l_steps := Some (JNum (Z.of_nat (List.length steps)));
                  l_file := file_name |}.
Proof.
  intros Hdir Hfile Hname Hdescr Hsteps. unfold list_file, readFile, lookup_file.
  rewrite Hdir, Hfile. simpl. rewrite Hname, Hdescr, Hsteps. reflexivity.
Qed.

(** C7.  When the [.json] files of the workflow directory are exactly
    one file that does not parse and one valid workflow document, in
    either order, [workflow_list] reports exactly two entries and
    returns: its text says "Found 2 workflow(s)" and holds, in
    [readdir] order, the block of the corrupt file as a degraded entry
    (description "Error loading workflow", 0 steps) and the block of the
    valid document with the length of its [steps] array. *)
Theorem workflowList_one_corrupt_one_valid
        (w : world) (entries : list (string * file))
        (corrupt valid syntax_error : string)
        (fields : list (string * json)) (name descr : string) (steps : list json)
        (corrupt_first : bool) :
  workflows w = Some entries ->
  filter (fun f => endsWith f ".json") (map fst entries)
    = (if corrupt_first then [ corrupt; valid ] else [ valid; corrupt ]) ->
  assoc corrupt entries = Some (File (NotJson syntax_error)) ->
  assoc valid entries = Some (File (Json (JObj fields))) ->
  assoc "name" fields = Some (JStr name) ->
  assoc "description" fields = Some (JStr descr) ->
  assoc "steps" fields = Some (JArr steps) ->
  let degraded_entry :=
    {| l_name := Some (JStr (replace ".json" "" corrupt));
       l_description := Some (JStr "Error loading workflow");
       l_steps := Some (JNum 0);
       l_file := corrupt |} in
  let valid_entry :=
    {| l_name := Some (JStr name);
       l_description := Some (JStr descr);
       l_steps := Some (JNum (Z.of_nat (List.length steps)));
       l_file := valid |} in
  let block (position entry_name entry_description entry_steps file_name : string) :=
    cat [ "## "; position; ". "; entry_name; nl;
          "- **Description:** "; entry_description; nl;
          "- **Steps:** "; entry_steps; nl;
          "- **File:** `"; file_name; "`"; nl; nl;
          "To use: `workflow_fetch(";
          q (replace "rei-hiking-shoes-purchase" "rei-hiking-shoes" entry_name);
          ")`"; nl ] in
  let degraded_block (position : string) :=
    block position (replace ".json" "" corrupt) "Error loading workflow" "0" corrupt in
  let valid_block (position : string) :=
    block position name descr (decimal_nat (List.length steps)) valid in
  list_entries w
    = Returned (if corrupt_first then [ degraded_entry; valid_entry ]
                else [ valid_entry; degraded_entry ]) /\
  workflowList w
    = Returned (text_result (cat
        [ "# Available Workflows"; nl; nl; "Found "; "2"; " workflow(s):"; nl; nl;
          join nl (if corrupt_first then [ degraded_block "1"; valid_block "2" ]
                   else [ valid_block "1"; degraded_block "2" ]) ])).
Proof.
  intros Hdir Hfiles Hcorrupt Hvalid Hname Hdescr Hsteps.
  pose proof (list_file_corrupt w entries corrupt syntax_error Hdir Hcorrupt) as Hc.
  pose proof (list_file_valid w entries valid fields name (Some (JStr descr)) steps
                Hdir Hvalid Hname Hdescr Hsteps) as Hv.
  cbv zeta.
  assert (Hlisted :
            list_entries w
              = Returned (if corrupt_first
                          then [ degraded corrupt;
                                 {| l_name := Some (JStr name);
                                    l_description := Some (JStr descr);
                                    l_steps := Some (JNum (Z.of_nat (List.length steps)));
                                    l_file := valid |} ]
                          else [ {| l_name := Some (JStr name);
                                    l_description := Some (JStr descr);
                                    l_steps := Some (JNum (Z.of_nat (List.length steps)));
                                    l_file := valid |};
                                 degraded corrupt ])).
  { unfold list_entries, readdir. rewrite Hdir. cbn [bind]. rewrite Hfiles.
    destruct corrupt_first; cbn [map_throwing]; rewrite Hc, Hv; reflexivity. }
  split; [exact Hlisted | ].
  unfold workflowList. rewrite Hlisted. cbn [bind].
  destruct corrupt_first; reflexivity.
Qed.

Lemma workflowList_one_corrupt_one_valid_witness :
  list_entries mixed_store
    = Returned [ {| l_name := Some (JStr "broken");
                    l_description := Some (JStr "Error loading workflow");
                    l_steps := Some (JNum 0);
                    l_file := "broken.json" |};
                 {| l_name := Some (JStr "checkout");
                    l_description := Some (JStr "Check out the cart");
                    l_steps := Some (JNum 2);
                    l_file := "checkout.json" |} ] /\
  workflowList mixed_store
    = Returned (text_result (cat
        [ "# Available Workflows"; nl; nl; "Found 2 workflow(s):"; nl; nl;
          "## 1. broken"; nl;
          "- **Description:** Error loading workflow"; nl;
          "- **Steps:** 0"; nl;
          "- **File:** `broken.json`"; nl; nl;
          "To use: `workflow_fetch("; q "broken"; ")`"; nl; nl;
          "## 2. checkout"; nl;
          "- **Description:** Check out the cart"; nl;
          "- **Steps:** 2"; nl;
          "- **File:** `checkout.json`"; nl; nl;
          "To use: `workflow_fetch("; q "checkout"; ")`"; nl ])).
Proof.
  apply (workflowList_one_corrupt_one_valid mixed_store
           [ ("broken.json", File (NotJson "Unexpected end of JSON input"));
             ("checkout.json", File (Json checkout_document));
             ("README.md", File (NotJson "Unexpected token #")) ]
           "broken.json" "checkout.json" "Unexpected end of JSON input"
           [ ("name", JStr "checkout");
             ("description", JStr "Check out the cart");
             ("steps",
              JArr [ JObj [ ("step", JNum 1); ("tool", JStr "browser_navigate");
                            ("description", JStr "Open the cart");
                            ("arguments", JObj [ ("url", JStr "https://shop.test/cart") ]) ];
                     JObj [ ("step", JNum 2); ("tool", JStr "browser_click");
                            ("description", JStr "Press Checkout");
                            ("arguments", JObj [ ("element", JStr "Checkout button") ]) ] ]) ]
           "checkout" "Check out the cart"
           [ JObj [ ("step", JNum 1); ("tool", JStr "browser_navigate");
                    ("description", JStr "Open the cart");
                    ("arguments", JObj [ ("url", JStr "https://shop.test/cart") ]) ];
             JObj [ ("step", JNum 2); ("tool", JStr "browser_click");
                    ("description", JStr "Press Checkout");
                    ("arguments", JObj [ ("element", JStr "Checkout button") ]) ] ]
           true); reflexivity.
Defined.

(** ** The workflow store: saving, then fetching *)

Lemma assoc_put {A : Type} (k : string) (x : A) (l : list (string * A)) :
  assoc k (put k x l) = Some x.
Proof.
  induction l as [ | [k' y] l IH]; simpl.
  - rewrite String.eqb_refl. reflexivity.
  - destruct (String.eqb k' k) eqn:Hk; simpl.
    + rewrite String.eqb_refl. reflexivity.
    + rewrite Hk. exact IH.
Qed.

Lemma map_throwing_total {A B : Type} (f : A -> outcome B) (l : list A) :
  (forall x, In x l -> exists y, f x = Returned y) ->
  exists ys, map_throwing f l = Returned ys /\ List.length ys = List.length l.
Proof.
  induction l as [ | x l IH]; intros Hall; simpl.
  - exists []. split; reflexivity.
  - destruct (Hall x (or_introl eq_refl)) as [y ->].
    destruct IH as (ys & -> & Hlen).
    { intros x' Hin. apply Hall. right. exact Hin. }
    exists (y :: ys). simpl. rewrite Hlen. split; reflexivity.
Qed.

Lemma fetch_step_object (fields : list (string * json)) :
  exists t, fetch_step (JObj fields) = Returned t.
Proof. unfold fetch_step. rewrite !get_object. simpl. eexists; reflexivity. Qed.

Lemma bullets_total (l : list json) :
  map_throwing bullet l = Returned (map (fun x => "- " ++ json_ToString x) l).
Proof.
  induction l as [ | x l IH]; simpl.
  - reflexivity.
  - rewrite IH. reflexivity.
Qed.

(** The text of [workflowFetch] is defined on every persisted Workflow. *)
Lemma fetch_text_of_workflow (wf : Workflow) :
  exists t, fetch_text (workflow_to_json wf) = Returned t.
Proof.
  destruct (map_throwing_total fetch_step (map step_to_json (wf_steps wf)))
    as (rendered & Hrendered & _).
  { intros x Hin. apply in_map_iff in Hin as (s & <- & _). apply fetch_step_object. }
  unfold fetch_text, workflow_to_json. rewrite !get_object.
  cbn [assoc String.eqb Ascii.eqb Bool.eqb bind get own_property js_map js_or truthy].
  rewrite Hrendered. cbn [bind]. rewrite !bullets_total. cbn [bind].
  eexists; reflexivity.
Qed.

Lemma selector_to_json_injective (d1 d2 : SelectorDescriptor) :
  selector_to_json d1 = selector_to_json d2 -> d1 = d2.
Proof.
  destruct d1 as [r1 n1 [t1 | ] o1], d2 as [r2 n2 [t2 | ] o2];
    unfold selector_to_json; simpl; intros Heq;
    try discriminate; injection Heq as -> -> ?; subst;
    repeat match goal with
           | H : Z.of_nat _ = Z.of_nat _ |- _ => apply Nat2Z.inj in H; subst
           end; reflexivity.
Qed.

Lemma step_to_json_injective (s1 s2 : Step) :
  step_to_json s1 = step_to_json s2 -> s1 = s2.
Proof.
  destruct s1 as [i1 t1 [d1 | ] a1 c1], s2 as [i2 t2 [d2 | ] a2 c2];
    unfold step_to_json; cbn [index tool target arguments description app];
    intros Heq; try discriminate.
  - remember (selector_to_json d1) as j1 eqn:Hj1.
    remember (selector_to_json d2) as j2 eqn:Hj2.
    injection Heq as Hi -> -> -> Hd.
    rewrite Hj1, Hj2 in Hd.
    apply Nat2Z.inj in Hi. apply selector_to_json_injective in Hd. subst. reflexivity.
  - injection Heq as Hi -> -> ->. apply Nat2Z.inj in Hi. subst. reflexivity.
Qed.

Lemma map_injective {A B : Type} (f : A -> B) :
  (forall x y, f x = f y -> x = y) ->
  forall l1 l2, map f l1 = map f l2 -> l1 = l2.
Proof.
  intros Hinj. induction l1 as [ | x l1 IH]; intros [ | y l2]; simpl; intros Heq;
    try discriminate.
  - reflexivity.
  - injection Heq as Hhead Htail. apply Hinj in Hhead. apply IH in Htail.
    subst. reflexivity.
Qed.

(** The persisted form determines the Workflow: its name, steps and
    description, criteria and notes. *)
Lemma workflow_to_json_injective (wf1 wf2 : Workflow) :
  workflow_to_json wf1 = workflow_to_json wf2 -> wf1 = wf2.
Proof.
  destruct wf1 as [n1 d1 s1 c1 o1], wf2 as [n2 d2 s2 c2 o2].
  unfold workflow_to_json; simpl. intros Heq.
  injection Heq as -> -> Hsteps Hcriteria Hnotes.
  apply (map_injective step_to_json step_to_json_injective) in Hsteps.
  apply (map_injective JStr) in Hcriteria; [ | intros x y H; injection H; trivial ].
  apply (map_injective JStr) in Hnotes; [ | intros x y H; injection H; trivial ].
  subst. reflexivity.
Qed.

(** ** Credentials in the login instructions *)

Lemma append_empty_r (s : string) : s ++ "" = s.
Proof. induction s as [ | c s IH]; simpl; [ | rewrite IH]; reflexivity. Qed.

Lemma append_associative (a b c : string) : (a ++ b) ++ c = a ++ b ++ c.
Proof. induction a as [ | x a IH]; simpl; [ | rewrite IH]; reflexivity. Qed.

Lemma cat_cons (x : string) (l : list string) : cat (x :: l) = x ++ cat l.
Proof.
  unfold cat. destruct l as [ | y l]; simpl.
  - rewrite append_empty_r. reflexivity.
  - reflexivity.
Qed.

Lemma cat_app (l1 l2 : list string) : cat (l1 ++ l2) = cat l1 ++ cat l2.
Proof.
  induction l1 as [ | x l1 IH].
  - reflexivity.
  - rewrite <- app_comm_cons, !cat_cons, IH, append_associative. reflexivity.
Qed.

Lemma contains_refl (s : string) : contains s s.
Proof. exists "", "". simpl. rewrite append_empty_r. reflexivity. Qed.

Lemma contains_append_l (sub x y : string) : contains sub x -> contains sub (x ++ y).
Proof.
  intros (pre & post & ->). exists pre, (post ++ y).
  rewrite !append_associative. reflexivity.
Qed.

Lemma contains_append_r (sub x y : string) : contains sub y -> contains sub (x ++ y).
Proof.
  intros (pre & post & ->). exists (x ++ pre), post.
  rewrite !append_associative. reflexivity.
Qed.

Lemma contains_cat_here (x : string) (l : list string) : contains x (cat (x :: l)).
Proof. rewrite cat_cons. apply contains_append_l, contains_refl. Qed.

Lemma contains_cat_later (sub x : string) (l : list string) :
  contains sub (cat l) -> contains sub (cat (x :: l)).
Proof. intros H. rewrite cat_cons. apply contains_append_r, H. Qed.

Lemma contains_cat_left (sub : string) (l1 l2 : list string) :
  contains sub (cat l1) -> contains sub (cat (l1 ++ l2)).
Proof. intros H. rewrite cat_app. apply contains_append_l, H. Qed.

Lemma contains_cat_right (sub : string) (l1 l2 : list string) :
  contains sub (cat l2) -> contains sub (cat (l1 ++ l2)).
Proof. intros H. rewrite cat_app. apply contains_append_r, H. Qed.

(** The credentials summary labels the password as redacted. *)
Lemma summary_redacts (SITE : string) (username password loginUrl : jsval) :
  contains "- Password: [REDACTED]"
           (cat (login_instructions SITE username password loginUrl)).
Proof.
  unfold login_instructions.
  apply contains_cat_right, contains_cat_left. unfold credentials_summary.
  do 5 apply contains_cat_later. apply contains_cat_here.
Qed.

(** The instructions hold the whole Step 4 block. *)
Lemma instructions_hold_step4 (SITE : string) (username password loginUrl : jsval) :
  contains (cat (step4_enter_password password))
           (cat (login_instructions SITE username password loginUrl)).
Proof.
  unfold login_instructions.
  do 9 apply contains_cat_right. apply contains_cat_left. apply contains_refl.
Qed.

(** The Step 4 block is the heading, the sample call up to the opening
    quote of its [text] argument, the password, and the rest. *)
Lemma step4_embeds (password : jsval) :
  exists before after,
    cat (step4_enter_password password)
      = ("### Step 4: Enter Password" ++ nl ++ before)
        ++ (q "text" ++ ": " ++ dq) ++ ToString password ++ (dq ++ ",") ++ after.
Proof.
  exists (cat [ "```json"; nl; "{"; nl; "  "; q "tool"; ": "; q "browser_type"; ","; nl;
                "  "; q "arguments"; ": {"; nl;
                "    "; q "element"; ": "; q "Password textbox"; ","; nl;
                "    "; q "ref"; ": "; q "{{PASSWORD_REF}}"; ","; nl; "    " ]).
  exists (cat [ nl; "    "; q "submit"; ": false"; nl; "  }"; nl; "}"; nl; "```"; nl; nl ]).
  unfold step4_enter_password, tool_call_sample, fenced, q.
  rewrite !cat_app, !cat_cons. unfold cat; simpl.
  rewrite !append_associative. simpl. reflexivity.
Qed.

(** C10.  For a site key of the credentials store whose entry, an
    object of plain values, has a username or an email, a password and
    a login URL, [login_to_site]
    succeeds with a text whose credentials summary shows the password as
    "[REDACTED]" while its Step 4 typing instructions carry the password
    itself as the text to type. *)
Theorem loginToSite_redacts_label_but_embeds_password
        (w : world) (credentials entry : list (string * json)) (site password : string) :
  credentials_file w = Some (File (Json (JObj credentials))) ->
  assoc site credentials = Some (JObj entry) ->
  plain_json (JObj entry) = true ->
  truthy (js_or (assoc "username" entry) (assoc "email" entry)) = true ->
  assoc "password" entry = Some (JStr password) ->
  truthy (assoc "loginUrl" entry) = true ->
  exists t before after,
    loginToSite w (Some (JStr site)) = Returned (text_result t) /\
    contains "- Password: [REDACTED]" t /\
    contains (cat (step4_enter_password (Some (JStr password)))) t /\
    cat (step4_enter_password (Some (JStr password)))
      = ("### Step 4: Enter Password" ++ nl ++ before)
        ++ (q "text" ++ ": " ++ dq) ++ password ++ (dq ++ ",") ++ after.
Proof.
  intros Hfile Hsite _ Husername Hpassword HloginUrl.
  destruct (step4_embeds (Some (JStr password))) as (before & after & Hblock).
  exists (cat (login_instructions (toUpperCase site)
                 (js_or (assoc "username" entry) (assoc "email" entry))
                 (Some (JStr password)) (assoc "loginUrl" entry))),
         before, after.
  split.
  - unfold loginToSite, readFile, lookup_file. rewrite Hfile.
    cbn [bind JSON_parse ToString json_ToString]. rewrite get_object, Hsite.
    cbn [bind truthy negb]. rewrite !get_object. cbn [bind].
    rewrite Husername, Hpassword, HloginUrl. reflexivity.
  - split; [apply summary_redacts | ].
    split; [apply instructions_hold_step4 | exact Hblock].
Qed.

Lemma loginToSite_redacts_label_but_embeds_password_witness :
  exists t before after,
    loginToSite credentials_world (Some (JStr "rei")) = Returned (text_result t) /\
    contains "- Password: [REDACTED]" t /\
    contains (cat (step4_enter_password (Some (JStr "s3cret-Pa55")))) t /\
    cat (step4_enter_password (Some (JStr "s3cret-Pa55")))
      = ("### Step 4: Enter Password" ++ nl ++ before)
        ++ (q "text" ++ ": " ++ dq) ++ "s3cret-Pa55" ++ (dq ++ ",") ++ after.
Proof.
  apply (loginToSite_redacts_label_but_embeds_password credentials_world rei_credentials
           [ ("email", JStr "hiker@example.com");
             ("password", JStr "s3cret-Pa55");
             ("loginUrl", JStr "https://www.rei.com/login") ]
           "rei" "s3cret-Pa55"); reflexivity.
Defined.

(** * Further properties of the tools *)

(** ** Pieces of a text *)

Lemma contains_cat_starts (l1 l2 : list string) : contains (cat l1) (cat (l1 ++ l2)).
Proof. apply contains_cat_left, contains_refl. Qed.

(** Walks down the pieces of a text until the wanted pieces start. *)
Ltac find_pieces :=
  lazymatch goal with
  | |- contains (cat ?wanted) _ =>
      first [ apply (contains_cat_starts wanted)
            | apply contains_cat_later; find_pieces ]
  end.

Lemma contains_trans (a b c : string) : contains a b -> contains b c -> contains a c.
Proof.
  intros (p1 & q1 & ->) (p2 & q2 & ->).
  exists (p2 ++ p1), (q1 ++ q2). rewrite !append_associative. reflexivity.
Qed.

Lemma join_cons (sep x : string) (l : list string) :
  join sep (x :: l) = match l with
                      | [] => x
                      | _ :: _ => x ++ sep ++ join sep l
                      end.
Proof. destruct l; reflexivity. Qed.

Lemma contains_join (sep x : string) (l : list string) :
  In x l -> contains x (join sep l).
Proof.
  induction l as [ | y l IH]; intros Hin; [contradiction | ].
  rewrite join_cons. destruct Hin as [-> | Hin].
  - destruct l; [apply contains_refl | apply contains_append_l, contains_refl].
  - destruct l as [ | z l]; [contradiction | ].
    apply contains_append_r, contains_append_r, IH, Hin.
Qed.

Lemma append_same_prefix (s x : string) : s ++ x = s -> x = "".
Proof.
  induction s as [ | c s IH]; simpl; intros Heq.
  - exact Heq.
  - injection Heq as Heq. apply IH, Heq.
Qed.

(** ** The credential helpers *)

(** X1.  For a site whose entry in the credentials store is an object
    of plain values, [get_login_credentials] always succeeds, without
    validating any field, and its text shows the stored password as it
    is, under the label "Username" when the entry has a username and
    "Email" otherwise. *)
Theorem getLoginCredentials_shows_password
        (w : world) (credentials entry : list (string * json)) (site : string) :
  credentials_file w = Some (File (Json (JObj credentials))) ->
  assoc site credentials = Some (JObj entry) ->
  plain_json (JObj entry) = true ->
  exists t,
    getLoginCredentials w (Some (JStr site)) = Returned (text_result t) /\
    contains (cat [ "**Password:** "; ToString (assoc "password" entry) ]) t /\
    contains (cat [ "**"; if truthy (assoc "username" entry) then "Username" else "Email";
                    ":** ";
                    ToString (js_or (assoc "username" entry) (assoc "email" entry)) ]) t.
Proof.
  intros Hfile Hsite _. eexists. split.
  - unfold getLoginCredentials, readFile, lookup_file. rewrite Hfile.
    cbn [bind JSON_parse ToString json_ToString]. rewrite get_object, Hsite.
    cbn [bind truthy negb]. rewrite !get_object. cbn [bind try_catch].
    reflexivity.
  - split; find_pieces.
Qed.

Lemma getLoginCredentials_shows_password_witness :
  exists t,
    getLoginCredentials credentials_world (Some (JStr "rei")) = Returned (text_result t) /\
    contains (cat [ "**Password:** "; "s3cret-Pa55" ]) t /\
    contains (cat [ "**"; "Email"; ":** "; "hiker@example.com" ]) t.
Proof.
  apply (getLoginCredentials_shows_password credentials_world rei_credentials
           [ ("email", JStr "hiker@example.com");
             ("password", JStr "s3cret-Pa55");
             ("loginUrl", JStr "https://www.rei.com/login") ]
           "rei"); reflexivity.
Defined.

(** X2.  Without a credentials file the two helpers fail differently:
    [get_login_credentials] throws the set-up help, which names the path
    of the file it looked for, while [login_to_site] throws the file
    system's own message behind its "Failed to prepare login" prefix. *)
Theorem missing_credentials_file (w : world) (site : jsval) :
  credentials_file w = None ->
  getLoginCredentials w site = Thrown (Error (credentials_format_help w)) /\
  contains (cat [ "Credentials file not found at: "; path_string w CREDENTIALS_FILE ])
           (credentials_format_help w) /\
  exists e,
    readFile w CREDENTIALS_FILE = Thrown e /\
    has_code e "ENOENT" = true /\
    loginToSite w site = Thrown (Error ("Failed to prepare login: " ++ message e)).
Proof.
  intros Hmissing. split; [ | split].
  - unfold getLoginCredentials, readFile, lookup_file. rewrite Hmissing. reflexivity.
  - unfold credentials_format_help. find_pieces.
  - eexists. unfold loginToSite, readFile, lookup_file. rewrite Hmissing.
    split; [reflexivity | ]. split; reflexivity.
Qed.

Lemma missing_credentials_file_witness :
  getLoginCredentials empty_store (Some (JStr "rei"))
    = Thrown (Error (credentials_format_help empty_store)) /\
  contains (cat [ "Credentials file not found at: ";
                  path_string empty_store CREDENTIALS_FILE ])
           (credentials_format_help empty_store) /\
  exists e,
    readFile empty_store CREDENTIALS_FILE = Thrown e /\
    has_code e "ENOENT" = true /\
    loginToSite empty_store (Some (JStr "rei"))
      = Thrown (Error ("Failed to prepare login: " ++ message e)).
Proof. apply (missing_credentials_file empty_store (Some (JStr "rei"))). reflexivity. Defined.

(** X3.  For a plain site argument that names no member of
    [Object.prototype] and has no (or a falsy) entry in a credentials
    object, both helpers fail with one and the same message behind their
    own prefixes; the message names the site asked for and lists every
    key of the store. *)
Theorem unknown_site_lists_known_sites
        (w : world) (credentials : list (string * json)) (site : jsval) :
  credentials_file w = Some (File (Json (JObj credentials))) ->
  plain site = true ->
  ~ In (ToString site) Object_prototype_members ->
  truthy (assoc (ToString site) credentials) = false ->
  exists m,
    getLoginCredentials w site = Thrown (Error ("Failed to get credentials: " ++ m)) /\
    loginToSite w site = Thrown (Error ("Failed to prepare login: " ++ m)) /\
    contains (cat [ "No credentials found for: "; ToString site ]) m /\
    forall k, In k (map fst credentials) -> contains ("  - " ++ k) m.
Proof.
  intros Hfile _ _ Hsite.
  exists (message (no_credentials_found site (JObj credentials))).
  split; [ | split; [ | split]].
  - unfold getLoginCredentials, readFile, lookup_file. rewrite Hfile.
    cbn [bind JSON_parse]. rewrite get_object. cbn [bind]. rewrite Hsite. reflexivity.
  - unfold loginToSite, readFile, lookup_file. rewrite Hfile.
    cbn [bind JSON_parse]. rewrite get_object. cbn [bind]. rewrite Hsite. reflexivity.
  - unfold no_credentials_found; cbn [message]. find_pieces.
  - intros k Hk. unfold no_credentials_found; cbn [message Object_keys].
    do 6 apply contains_cat_later. rewrite cat_cons. apply contains_append_l.
    apply contains_join. apply in_map with (f := fun s => "  - " ++ s) in Hk. exact Hk.
Qed.

Lemma unknown_site_lists_known_sites_witness :
  exists m,
    getLoginCredentials partial_credentials_world (Some (JStr "amazon"))
      = Thrown (Error ("Failed to get credentials: " ++ m)) /\
    loginToSite partial_credentials_world (Some (JStr "amazon"))
      = Thrown (Error ("Failed to prepare login: " ++ m)) /\
    contains (cat [ "No credentials found for: "; "amazon" ]) m /\
    forall k, In k (map fst partial_credentials) -> contains ("  - " ++ k) m.
Proof.
  apply (unknown_site_lists_known_sites partial_credentials_world partial_credentials
           (Some (JStr "amazon"))).
  - reflexivity.
  - reflexivity.
  - intros Hmember. simpl in Hmember.
    repeat (destruct Hmember as [Hmember | Hmember]; [discriminate Hmember | ]).
    exact Hmember.
  - reflexivity.
Defined.

(** X4.  [login_to_site] checks that the entry has a username or an
    email and a login URL, but never that it has a password: for an
    entry without one it still succeeds, and its Step 4 instructions
    tell the agent to type the text "undefined". *)
Theorem loginToSite_does_not_validate_password
        (w : world) (credentials entry : list (string * json)) (site : string) :
  credentials_file w = Some (File (Json (JObj credentials))) ->
  assoc site credentials = Some (JObj entry) ->
  plain_json (JObj entry) = true ->
  truthy (js_or (assoc "username" entry) (assoc "email" entry)) = true ->
  truthy (assoc "loginUrl" entry) = true ->
  assoc "password" entry = None ->
  exists t before after,
    loginToSite w (Some (JStr site)) = Returned (text_result t) /\
    contains (cat (step4_enter_password undefined)) t /\
    cat (step4_enter_password undefined)
      = ("### Step 4: Enter Password" ++ nl ++ before)
        ++ (q "text" ++ ": " ++ dq) ++ "undefined" ++ (dq ++ ",") ++ after.
Proof.
  intros Hfile Hsite _ Husername HloginUrl Hpassword.
  destruct (step4_embeds undefined) as (before & after & Hblock).
  exists (cat (login_instructions (toUpperCase site)
                 (js_or (assoc "username" entry) (assoc "email" entry))
                 undefined (assoc "loginUrl" entry))),
         before, after.
  split; [ | split; [apply instructions_hold_step4 | exact Hblock]].
  unfold loginToSite, readFile, lookup_file. rewrite Hfile.
  cbn [bind JSON_parse ToString json_ToString]. rewrite get_object, Hsite.
  cbn [bind truthy negb]. rewrite !get_object. cbn [bind].
  rewrite Husername, Hpassword, HloginUrl. reflexivity.
Qed.

Lemma loginToSite_does_not_validate_password_witness :
  exists t before after,
    loginToSite partial_credentials_world (Some (JStr "trail"))
      = Returned (text_result t) /\
    contains (cat (step4_enter_password undefined)) t /\
    cat (step4_enter_password undefined)
      = ("### Step 4: Enter Password" ++ nl ++ before)
        ++ (q "text" ++ ": " ++ dq) ++ "undefined" ++ (dq ++ ",") ++ after.
Proof.
  apply (loginToSite_does_not_validate_password partial_credentials_world
           partial_credentials
           [ ("username", JStr "walker"); ("loginUrl", JStr "https://trail.test/login") ]
           "trail"); reflexivity.
Defined.

(** X5.  [login_to_site] rejects an entry that has neither a username
    nor an email, and otherwise an entry that has no login URL; the
    username is checked first, and each message names the site and the
    field to add. *)
Theorem loginToSite_rejects_incomplete_entry
        (w : world) (credentials entry : list (string * json)) (site : string) :
  credentials_file w = Some (File (Json (JObj credentials))) ->
  assoc site credentials = Some (JObj entry) ->
  (truthy (js_or (assoc "username" entry) (assoc "email" entry)) = false ->
   exists m,
     loginToSite w (Some (JStr site))
       = Thrown (Error ("Failed to prepare login: " ++ m)) /\
     contains (cat [ "No username/email found in credentials for "; site ]) m) /\
  (truthy (js_or (assoc "username" entry) (assoc "email" entry)) = true ->
   truthy (assoc "loginUrl" entry) = false ->
   exists m,
     loginToSite w (Some (JStr site))
       = Thrown (Error ("Failed to prepare login: " ++ m)) /\
     contains (cat [ "No loginUrl configured for "; site ]) m).
Proof.
  intros Hfile Hsite.
  assert (Hbody : forall u l,
             truthy (js_or (assoc "username" entry) (assoc "email" entry)) = u ->
             truthy (assoc "loginUrl" entry) = l ->
             (u = false -> loginToSite w (Some (JStr site))
                = Thrown (Error ("Failed to prepare login: "
                                 ++ message (no_username_found (Some (JStr site)))))) /\
             (u = true -> l = false -> loginToSite w (Some (JStr site))
                = Thrown (Error ("Failed to prepare login: "
                                 ++ message (no_loginUrl_configured (Some (JStr site))))))).
  { intros u l Hu Hl.
    unfold loginToSite, readFile, lookup_file. rewrite Hfile.
    cbn [bind JSON_parse ToString json_ToString]. rewrite get_object, Hsite.
    cbn [bind truthy negb]. rewrite !get_object. cbn [bind].
    rewrite Hu, Hl. split.
    - intros ->. reflexivity.
    - intros -> ->. reflexivity. }
  split.
  - intros Hu. eexists. split.
    + exact (proj1 (Hbody _ _ Hu eq_refl) eq_refl).
    + unfold no_username_found; cbn [message]. find_pieces.
  - intros Hu Hl. eexists. split.
    + exact (proj2 (Hbody _ _ Hu Hl) eq_refl eq_refl).
    + unfold no_loginUrl_configured; cbn [message]. find_pieces.
Qed.

Lemma loginToSite_rejects_incomplete_entry_witness :
  (exists m,
     loginToSite partial_credentials_world (Some (JStr "camp"))
       = Thrown (Error ("Failed to prepare login: " ++ m)) /\
     contains (cat [ "No username/email found in credentials for "; "camp" ]) m) /\
  (exists m,
     loginToSite partial_credentials_world (Some (JStr "lodge"))
       = Thrown (Error ("Failed to prepare login: " ++ m)) /\
     contains (cat [ "No loginUrl configured for "; "lodge" ]) m).
Proof.
  split.
  - apply (loginToSite_rejects_incomplete_entry partial_credentials_world
             partial_credentials
             [ ("password", JStr "t3nt"); ("loginUrl", JStr "https://camp.test/login") ]
             "camp"); reflexivity.
  - apply (loginToSite_rejects_incomplete_entry partial_credentials_world
             partial_credentials
             [ ("username", JStr "keeper"); ("password", JStr "k33p") ]
             "lodge"); reflexivity.
Defined.

Lemma js_toUpperCase_returns (what : string) (v : jsval) (s : string) :
  js_toUpperCase what v = Returned s -> exists x, v = Some (JStr x).
Proof.
  destruct v as [[ | | | x | | ] | ]; simpl; intros H; try discriminate.
  exists x; reflexivity.
Qed.

Lemma loginToSite_returns_only_for_strings (w : world) (site : jsval) (r : result) :
  loginToSite w site = Returned r -> exists s, site = Some (JStr s).
Proof.
  unfold loginToSite.
  destruct (readFile w CREDENTIALS_FILE) as [data | ]; cbn [bind try_catch];
    [ | intros H; discriminate H].
  destruct (JSON_parse data) as [credentials | ]; cbn [bind try_catch];
    [ | intros H; discriminate H].
  destruct (get (Some credentials) (ToString site)) as [entry | ]; cbn [bind try_catch];
    [ | intros H; discriminate H].
  destruct (negb (truthy entry)); cbn [bind try_catch]; [intros H; discriminate H | ].
  destruct (get entry "username") as [entry_username | ]; cbn [bind try_catch];
    [ | intros H; discriminate H].
  destruct (get entry "email") as [entry_email | ]; cbn [bind try_catch];
    [ | intros H; discriminate H].
  destruct (get entry "password") as [password | ]; cbn [bind try_catch];
    [ | intros H; discriminate H].
  destruct (get entry "loginUrl") as [loginUrl | ]; cbn [bind try_catch];
    [ | intros H; discriminate H].
  destruct (negb (truthy (js_or entry_username entry_email))); cbn [bind try_catch];
    [intros H; discriminate H | ].
  destruct (negb (truthy loginUrl)); cbn [bind try_catch]; [intros H; discriminate H | ].
  destruct (js_toUpperCase "site" site) as [SITE | ] eqn:Hupper; cbn [bind try_catch];
    [ | intros H; discriminate H].
  intros _. eapply js_toUpperCase_returns. exact Hupper.
Qed.

(** X6.  [login_to_site] succeeds for string sites only: called with a
    site that is not a string (a number that is a key of the store, a
    missing argument), it fails in every state of the credentials store,
    with the "Failed to prepare login" error. *)
Theorem loginToSite_needs_string_site (w : world) (site : jsval) :
  (forall s, site <> Some (JStr s)) ->
  exists m, loginToSite w site = Thrown (Error ("Failed to prepare login: " ++ m)).
Proof.
  intros Hsite. destruct (loginToSite w site) as [r | e] eqn:Houtcome.
  - apply loginToSite_returns_only_for_strings in Houtcome as [s Hs].
    exfalso. exact (Hsite s Hs).
  - apply loginToSite_throws in Houtcome as [m ->]. exists m. reflexivity.
Qed.

Lemma loginToSite_needs_string_site_witness :
  exists m,
    loginToSite partial_credentials_world (Some (JNum 5))
      = Thrown (Error ("Failed to prepare login: " ++ m)).
Proof.
  apply (loginToSite_needs_string_site partial_credentials_world (Some (JNum 5))).
  intros s; discriminate.
Defined.

(** X7.  Whatever goes wrong inside the two credential helpers and the
    two readers of the workflow store, called on a plain argument (a
    file system error, malformed JSON, a TypeError on an unexpected
    document), what they throw is an [Error] of their own whose message
    starts with one of their six fixed phrases. *)
Theorem readers_wrap_every_failure (w : world) (v : jsval) (e : js_error) :
  plain v = true ->
  loginToSite w v = Thrown e \/ getLoginCredentials w v = Thrown e \/
  workflowFetch w v = Thrown e \/ workflowList w = Thrown e ->
  exists phrase m,
    In phrase [ "Failed to prepare login: "; "Credentials file not found at: ";
                "Failed to get credentials: "; "Workflow not found: ";
                "Failed to fetch workflow: "; "Failed to list workflows: " ] /\
    e = Error (phrase ++ m).
Proof.
  intros _ [H | [H | [H | H]]].
  - apply loginToSite_throws in H as [m ->].
    exists "Failed to prepare login: ", m. simpl; tauto.
  - apply getLoginCredentials_throws in H as [-> | [m ->]].
    + exists "Credentials file not found at: ". eexists. split; [simpl; tauto | ].
      unfold credentials_format_help. rewrite cat_cons. reflexivity.
    + exists "Failed to get credentials: ", m. simpl; tauto.
  - apply workflowFetch_throws in H as [-> | [m ->]].
    + exists "Workflow not found: ", (ToString v). simpl; tauto.
    + exists "Failed to fetch workflow: ", m. simpl; tauto.
  - apply workflowList_throws in H as [m ->].
    exists "Failed to list workflows: ", m. simpl; tauto.
Qed.

Lemma readers_wrap_every_failure_witness :
  exists phrase m,
    In phrase [ "Failed to prepare login: "; "Credentials file not found at: ";
                "Failed to get credentials: "; "Workflow not found: ";
                "Failed to fetch workflow: "; "Failed to list workflows: " ] /\
    Error "Failed to list workflows: ENOENT: no such file or directory, scandir '/srv/custom-mcp-server/workflows'"
      = Error (phrase ++ m).
Proof.
  apply (readers_wrap_every_failure no_directory_world None).
  - reflexivity.
  - right; right; right. reflexivity.
Defined.

(** ** The readers of the workflow store *)

Lemma map_throwing_returned {A B : Type} (f : A -> outcome B) (l : list A) (ys : list B) :
  map_throwing f l = Returned ys -> Forall2 (fun x y => f x = Returned y) l ys.
Proof.
  revert ys. induction l as [ | x l IH]; simpl; intros ys Hmap.
  - injection Hmap as <-. constructor.
  - destruct (f x) as [y | ] eqn:Hx; simpl in Hmap; [ | discriminate].
    destruct (map_throwing f l) as [ys' | ]; simpl in Hmap; [ | discriminate].
    injection Hmap as <-. constructor; [exact Hx | apply IH; reflexivity].
Qed.

Lemma map_throwing_thrown {A B : Type} (f : A -> outcome B) (l : list A) (x : A)
      (e : js_error) :
  In x l -> f x = Thrown e -> exists e', map_throwing f l = Thrown e'.
Proof.
  induction l as [ | y l IH]; intros Hin Hx; [contradiction | ].
  simpl. destruct (f y) as [b | e0] eqn:Hy; simpl.
  - destruct Hin as [-> | Hin]; [congruence | ].
    destruct (IH Hin Hx) as [e' ->]. exists e'. reflexivity.
  - exists e0. reflexivity.
Qed.

Lemma Forall2_In_left {A B : Type} (R : A -> B -> Prop) (l : list A) (l' : list B) (x : A) :
  Forall2 R l l' -> In x l -> exists y, In y l' /\ R x y.
Proof.
  induction 1 as [ | a b l l' Hab _ IH]; intros Hin; [contradiction | ].
  destruct Hin as [-> | Hin].
  - exists b. split; [left; reflexivity | exact Hab].
  - destruct (IH Hin) as (y & Hy & HR). exists y. split; [right; exact Hy | exact HR].
Qed.

Lemma In_combine_seq {A : Type} (l : list A) (x : A) (k : nat) :
  In x l -> exists i, In (i, x) (combine (seq k (List.length l)) l).
Proof.
  revert k. induction l as [ | y l IH]; intros k Hin; [contradiction | ].
  simpl. destruct Hin as [-> | Hin].
  - exists k. left; reflexivity.
  - destruct (IH (S k) Hin) as [i Hi]. exists i. right; exact Hi.
Qed.

(** Case analysis along a chain of [bind]s. *)
Ltac step_binds :=
  repeat match goal with
         | |- context [bind ?m _] => destruct m; cbn [bind try_catch]
         end.

Lemma list_file_total (w : world) (file_name : string) :
  exists entry, list_file w file_name = Returned entry /\ l_file entry = file_name.
Proof.
  unfold list_file. step_binds; eexists; split; reflexivity.
Qed.

Lemma list_file_object (w : world) (entries : list (string * file)) (file_name : string)
      (fields : list (string * json)) (steps : list json) :
  workflows w = Some entries ->
  assoc file_name entries = Some (File (Json (JObj fields))) ->
  assoc "steps" fields = Some (JArr steps) ->
  list_file w file_name
    = Returned {| l_name := assoc "name" fields;
                  l_description := assoc "description" fields;
                  l_steps := Some (JNum (Z.of_nat (List.length steps)));
                  l_file := file_name |}.
Proof.
  intros Hdir Hfile Hsteps. unfold list_file, readFile, lookup_file.
  rewrite Hdir, Hfile. simpl. rewrite Hsteps. reflexivity.
Qed.

Lemma list_entries_each (w : world) (entries : list (string * file)) :
  workflows w = Some entries ->
  exists listed,
    list_entries w = Returned listed /\
    Forall2 (fun f entry => list_file w f = Returned entry)
            (filter (fun f => endsWith f ".json") (map fst entries)) listed.
Proof.
  intros Hdir. unfold list_entries, readdir. rewrite Hdir. cbn [bind].
  destruct (map_throwing_total (list_file w)
              (filter (fun f => endsWith f ".json") (map fst entries)))
    as (listed & Hlisted & _).
  { intros f _. destruct (list_file_total w f) as (entry & Hentry & _).
    exists entry. exact Hentry. }
  exists listed. split; [exact Hlisted | ].
  apply map_throwing_returned. exact Hlisted.
Qed.

(** X8.  For every state of the store and every name that can be a
    file name and has no stored file, also when the directory itself is missing, [workflow_fetch]
    throws the bare "Workflow not found" message; the error that lists
    the available workflows, whatever the files, is never that error. *)
Theorem workflowFetch_not_found_is_bare (w : world) (workflowName : jsval) :
  names_a_file workflowName = true ->
  lookup_file w (in_WORKFLOWS_DIR (ToString workflowName ++ ".json")) = None ->
  workflowFetch w workflowName
    = Thrown (Error ("Workflow not found: " ++ ToString workflowName)) /\
  forall files,
    workflow_not_found_listing workflowName files
      <> Error ("Workflow not found: " ++ ToString workflowName).
Proof.
  intros _ Hmissing. split; [apply workflowFetch_missing; exact Hmissing | ].
  intros files Heq. apply (f_equal message) in Heq.
  unfold workflow_not_found_listing in Heq. cbn [message] in Heq.
  rewrite !cat_cons, <- append_associative in Heq.
  apply append_same_prefix in Heq. discriminate Heq.
Qed.

Lemma workflowFetch_not_found_is_bare_witness :
  workflowFetch no_directory_world (Some (JStr "checkout"))
    = Thrown (Error ("Workflow not found: " ++ "checkout")) /\
  forall files,
    workflow_not_found_listing (Some (JStr "checkout")) files
      <> Error ("Workflow not found: " ++ "checkout").
Proof.
  apply (workflowFetch_not_found_is_bare no_directory_world (Some (JStr "checkout")));
    reflexivity.
Defined.

(** X9.  A stored file that cannot be used is never reported as
    missing: when it cannot be read (for a reason other than ENOENT),
    does not parse, or parses to an object without [steps],
    [workflow_fetch] throws "Failed to fetch workflow: " followed by the
    cause. *)
Theorem workflowFetch_unusable_file (w : world) (workflowName : jsval) (stored : file) :
  names_a_file workflowName = true ->
  lookup_file w (in_WORKFLOWS_DIR (ToString workflowName ++ ".json")) = Some stored ->
  (exists code m, stored = Unreadable code m /\ String.eqb code "ENOENT" = false) \/
  (exists m, stored = File (NotJson m)) \/
  (exists fields, stored = File (Json (JObj fields)) /\ assoc "steps" fields = None) ->
  exists m,
    workflowFetch w workflowName = Thrown (Error ("Failed to fetch workflow: " ++ m)) /\
    match stored with
    | Unreadable _ cause | File (NotJson cause) => m = cause
    | File (Json _) => True
    end.
Proof.
  intros _ Hstored [(code & m & -> & Hcode) | [(m & ->) | (fields & -> & Hsteps)]];
    unfold workflowFetch, readFile; rewrite Hstored.
  - exists m. cbn [bind try_catch has_code]. rewrite Hcode. split; reflexivity.
  - exists m. split; reflexivity.
  - cbn [bind JSON_parse]. unfold fetch_text. rewrite !get_object. cbn [bind].
    rewrite Hsteps. eexists. split; [reflexivity | exact I].
Qed.

Lemma workflowFetch_unusable_file_witness :
  exists m,
    workflowFetch untidy_store (Some (JStr "folder"))
      = Thrown (Error ("Failed to fetch workflow: " ++ m)) /\
    m = "EISDIR: illegal operation on a directory, read".
Proof.
  apply (workflowFetch_unusable_file untidy_store (Some (JStr "folder"))
           (Unreadable "EISDIR" "EISDIR: illegal operation on a directory, read")).
  - reflexivity.
  - reflexivity.
  - left. eexists; eexists. split; reflexivity.
Defined.

Lemma fetch_step_not_null (step : json) :
  step <> JNull -> exists t, fetch_step step = Returned t.
Proof.
  intros Hnot. unfold fetch_step.
  destruct step; [contradiction | | | | | ]; cbn [get bind]; eexists; reflexivity.
Qed.

Lemma bullets_of_optional_array (what : string) (v : jsval) :
  truthy v = false \/ (exists l, v = Some (JArr l)) ->
  exists bullets, js_map what (js_or v (Some (JArr []))) bullet = Returned bullets.
Proof.
  intros [Hfalsy | [l ->]]; unfold js_or.
  - rewrite Hfalsy. exists []. reflexivity.
  - cbn [truthy js_map]. rewrite bullets_total. eexists; reflexivity.
Qed.

(** X10.  [workflow_fetch] succeeds on every stored document of plain
    values that is an object whose [steps] is an array without [null] elements and whose
    [successCriteria] and [notes] are arrays or absent; no other field
    is needed.  The text states the number of steps and carries the
    whole document as JSON. *)
Theorem workflowFetch_needs_only_steps
        (w : world) (workflowName : jsval) (fields : list (string * json))
        (steps : list json) :
  names_a_file workflowName = true ->
  lookup_file w (in_WORKFLOWS_DIR (ToString workflowName ++ ".json"))
    = Some (File (Json (JObj fields))) ->
  plain_json (JObj fields) = true ->
  assoc "steps" fields = Some (JArr steps) ->
  ~ In JNull steps ->
  truthy (assoc "successCriteria" fields) = false \/
    (exists l, assoc "successCriteria" fields = Some (JArr l)) ->
  truthy (assoc "notes" fields) = false \/ (exists l, assoc "notes" fields = Some (JArr l)) ->
  exists t,
    workflowFetch w workflowName = Returned (text_result t) /\
    contains (cat [ "**Steps:** "; decimal_nat (List.length steps) ]) t /\
    contains (cat [ "```json"; nl; JSON_stringify (JObj fields); nl; "```" ]) t.
Proof.
  intros _ Hstored _ Hsteps Hnonnull Hcriteria Hnotes.
  destruct (map_throwing_total fetch_step steps) as (rendered & Hrendered & _).
  { intros step Hin. apply fetch_step_not_null. intros ->. exact (Hnonnull Hin). }
  destruct (bullets_of_optional_array "(workflow.successCriteria || [])" _ Hcriteria)
    as [criteria Hc].
  destruct (bullets_of_optional_array "(workflow.notes || [])" _ Hnotes) as [noted Hn].
  eexists. split.
  - unfold workflowFetch, readFile. rewrite Hstored. cbn [bind JSON_parse].
    unfold fetch_text. rewrite !get_object. cbn [bind]. rewrite Hsteps.
    cbn [get own_property String.eqb Ascii.eqb Bool.eqb bind js_map].
    rewrite Hrendered. cbn [bind]. rewrite Hc. cbn [bind]. rewrite Hn.
    cbn [bind try_catch]. reflexivity.
  - split; find_pieces.
Qed.

Lemma workflowFetch_needs_only_steps_witness :
  exists t,
    workflowFetch untidy_store (Some (JStr "terse")) = Returned (text_result t) /\
    contains (cat [ "**Steps:** "; decimal_nat 2 ]) t /\
    contains (cat [ "```json"; nl; JSON_stringify terse_document; nl; "```" ]) t.
Proof.
  apply (workflowFetch_needs_only_steps untidy_store (Some (JStr "terse"))
           [ ("name", JStr "terse");
             ("steps", JArr [ JStr "look around"; JObj [ ("step", JNum 2) ] ]) ]
           [ JStr "look around"; JObj [ ("step", JNum 2) ] ]).
  - reflexivity.
  - reflexivity.
  - reflexivity.
  - reflexivity.
  - intros [H | [H | []]]; discriminate H.
  - left; reflexivity.
  - left; reflexivity.
Defined.

Lemma listed_files (w : world) (files : list string) (listed : list listing) :
  Forall2 (fun f entry => list_file w f = Returned entry) files listed ->
  map l_file listed = files.
Proof.
  induction 1 as [ | f entry files listed Hentry _ IH]; [reflexivity | ].
  simpl. rewrite IH. f_equal.
  destruct (list_file_total w f) as (entry' & Hentry' & Hfile).
  rewrite Hentry in Hentry'. injection Hentry' as <-. exact Hfile.
Qed.

(** X11.  Whenever the workflow directory can be read, the array that
    [workflow_list] builds has exactly one entry for each file whose
    name ends in [.json], in [readdir] order, whatever those files hold:
    no file can make the per-file step fail. *)
Theorem list_entries_one_per_json_file (w : world) (entries : list (string * file)) :
  workflows w = Some entries ->
  exists listed,
    list_entries w = Returned listed /\
    map l_file listed = filter (fun f => endsWith f ".json") (map fst entries).
Proof.
  intros Hdir. destruct (list_entries_each w entries Hdir) as (listed & Hlisted & Heach).
  exists listed. split; [exact Hlisted | ].
  apply (listed_files w). exact Heach.
Qed.

Lemma list_entries_one_per_json_file_witness :
  exists listed,
    list_entries untidy_store = Returned listed /\
    map l_file listed
      = [ "cart.json"; "terse.json"; "stepless.json"; "folder.json"; "broken.json" ].
Proof.
  apply (list_entries_one_per_json_file untidy_store
           [ ("cart.json", File (Json checkout_document));
             ("terse.json", File (Json terse_document));
             ("stepless.json", File (Json (JObj [ ("name", JStr "stepless") ])));
             ("folder.json", Unreadable "EISDIR"
                               "EISDIR: illegal operation on a directory, read");
             ("broken.json", File (NotJson "Unexpected end of JSON input")) ]).
  reflexivity.
Defined.

(** X12.  The degraded entry "Error loading workflow" with 0 steps is
    not reserved to files that do not parse: an entry that cannot be
    read, a document that is [null], and a well-formed document that has
    no [steps] (or a [null] one) are listed in the same way. *)
Theorem list_file_degraded_causes (w : world) (entries : list (string * file))
        (file_name : string) (stored : file) :
  workflows w = Some entries ->
  assoc file_name entries = Some stored ->
  (exists code m, stored = Unreadable code m) \/
  (exists m, stored = File (NotJson m)) \/
  stored = File (Json JNull) \/
  (exists v, stored = File (Json v) /\
             (own_property v "steps" = None \/ own_property v "steps" = Some JNull)) ->
  list_file w file_name
    = Returned {| l_name := Some (JStr (replace ".json" "" file_name));
                  l_description := Some (JStr "Error loading workflow");
                  l_steps := Some (JNum 0);
                  l_file := file_name |}.
Proof.
  intros Hdir Hstored Hcause. unfold list_file, readFile, lookup_file.
  rewrite Hdir, Hstored.
  destruct Hcause as [(code & m & ->) | [(m & ->) | [-> | (v & -> & Hsteps)]]];
    try reflexivity.
  cbn [bind JSON_parse]. destruct v; try reflexivity;
    cbn [get bind]; destruct Hsteps as [-> | ->]; reflexivity.
Qed.

Lemma list_file_degraded_causes_witness :
  list_file untidy_store "stepless.json"
    = Returned {| l_name := Some (JStr (replace ".json" "" "stepless.json"));
                  l_description := Some (JStr "Error loading workflow");
                  l_steps := Some (JNum 0);
                  l_file := "stepless.json" |}.
Proof.
  apply (list_file_degraded_causes untidy_store
           [ ("cart.json", File (Json checkout_document));
             ("terse.json", File (Json terse_document));
             ("stepless.json", File (Json (JObj [ ("name", JStr "stepless") ])));
             ("folder.json", Unreadable "EISDIR"
                               "EISDIR: illegal operation on a directory, read");
             ("broken.json", File (NotJson "Unexpected end of JSON input")) ]
           "stepless.json" (File (Json (JObj [ ("name", JStr "stepless") ])))).
  - reflexivity.
  - reflexivity.
  - right; right; right. eexists. split; [reflexivity | left; reflexivity].
Defined.

Lemma list_item_needs_string_name (i : nat) (entry : listing) :
  (forall s, l_name entry <> Some (JStr s)) -> exists e, list_item (i, entry) = Thrown e.
Proof.
  intros Hname. unfold list_item.
  destruct (l_name entry) as [[ | | | s | | ] | ]; cbn [js_replace bind];
    try (eexists; reflexivity).
  exfalso. exact (Hname s eq_refl).
Qed.

(** X13.  The tolerance of [workflow_list] stops at documents that
    load: one [.json] file holding an object with a [steps] array but no
    string [name] makes the whole listing fail with "Failed to list
    workflows", whatever else the directory holds. *)
Theorem workflowList_aborts_on_nameless_document
        (w : world) (entries : list (string * file)) (file_name : string)
        (fields : list (string * json)) (steps : list json) :
  workflows w = Some entries ->
  In file_name (filter (fun f => endsWith f ".json") (map fst entries)) ->
  assoc file_name entries = Some (File (Json (JObj fields))) ->
  assoc "steps" fields = Some (JArr steps) ->
  (forall s, assoc "name" fields <> Some (JStr s)) ->
  exists m, workflowList w = Thrown (Error ("Failed to list workflows: " ++ m)).
Proof.
  intros Hdir Hin Hstored Hsteps Hname.
  destruct (list_entries_each w entries Hdir) as (listed & Hlisted & Heach).
  destruct (Forall2_In_left _ _ _ _ Heach Hin) as (entry & Hentry & Hfile).
  rewrite (list_file_object w entries file_name fields steps Hdir Hstored Hsteps) in Hfile.
  injection Hfile as Hfile.
  destruct (In_combine_seq listed entry 0 Hentry) as [i Hi].
  destruct (list_item_needs_string_name i entry) as [e He].
  { rewrite <- Hfile. exact Hname. }
  destruct (map_throwing_thrown list_item _ _ _ Hi He) as [e' Hitems].
  exists (message e'). unfold workflowList. rewrite Hlisted. cbn [bind].
  unfold list_text. rewrite Hitems. reflexivity.
Qed.

Lemma workflowList_aborts_on_nameless_document_witness :
  exists m, workflowList nameless_store = Thrown (Error ("Failed to list workflows: " ++ m)).
Proof.
  apply (workflowList_aborts_on_nameless_document nameless_store
           [ ("checkout.json", File (Json checkout_document));
             ("nameless.json", File (Json nameless_document)) ]
           "nameless.json"
           [ ("description", JStr "No name given");
             ("steps", JArr [ JObj [ ("step", JNum 1); ("tool", JStr "browser_snapshot") ] ]) ]
           [ JObj [ ("step", JNum 1); ("tool", JStr "browser_snapshot") ] ]).
  - reflexivity.
  - right; left; reflexivity.
  - reflexivity.
  - reflexivity.
  - intros s; discriminate.
Defined.

(** X14.  [workflow_list] advertises each loaded document under the
    name written inside it ("To use: workflow_fetch(...)", after its one
    fixed renaming), while [workflow_fetch] resolves a name against the
    file names: when no file of the advertised name exists, the
    advertised call fails with "Workflow not found". *)
Theorem workflowList_advertises_document_name
        (w : world) (entries : list (string * file)) (file_name name t : string)
        (fields : list (string * json)) (steps : list json) :
  workflows w = Some entries ->
  In file_name (filter (fun f => endsWith f ".json") (map fst entries)) ->
  assoc file_name entries = Some (File (Json (JObj fields))) ->
  assoc "name" fields = Some (JStr name) ->
  assoc "steps" fields = Some (JArr steps) ->
  workflowList w = Returned (text_result t) ->
  let advertised := replace "rei-hiking-shoes-purchase" "rei-hiking-shoes" name in
  contains (cat [ "To use: `workflow_fetch("; q advertised; ")`" ]) t /\
  (names_a_file (Some (JStr advertised)) = true ->
   assoc (advertised ++ ".json") entries = None ->
   workflowFetch w (Some (JStr advertised))
     = Thrown (Error ("Workflow not found: " ++ advertised))).
Proof.
  intros Hdir Hin Hstored Hname Hsteps Hlist advertised.
  split.
  - destruct (list_entries_each w entries Hdir) as (listed & Hlisted & Heach).
    destruct (Forall2_In_left _ _ _ _ Heach Hin) as (entry & Hentry & Hfile).
    rewrite (list_file_object w entries file_name fields steps Hdir Hstored Hsteps)
      in Hfile.
    injection Hfile as Hfile.
    destruct (In_combine_seq listed entry 0 Hentry) as [i Hi].
    unfold workflowList in Hlist. rewrite Hlisted in Hlist. cbn [bind] in Hlist.
    unfold list_text in Hlist.
    destruct (map_throwing list_item (combine (seq 0 (List.length listed)) listed))
      as [items | ] eqn:Hitems; cbn [bind try_catch] in Hlist; [ | discriminate Hlist].
    injection Hlist as <-.
    apply map_throwing_returned in Hitems.
    destruct (Forall2_In_left _ _ _ _ Hitems Hi) as (item & Hitem_in & Hitem).
    apply contains_trans with (b := item).
    + unfold list_item in Hitem. rewrite <- Hfile in Hitem.
      cbn [l_name l_description l_steps l_file] in Hitem. rewrite Hname in Hitem.
      cbn [js_replace bind] in Hitem. injection Hitem as <-.
      fold advertised. find_pieces.
    + apply contains_trans with (b := join nl items).
      * apply contains_join. exact Hitem_in.
      * change (join nl items) with (cat [ join nl items ]). find_pieces.
  - intros _ Hmissing. apply (workflowFetch_missing w (Some (JStr advertised))).
    unfold lookup_file. rewrite Hdir. exact Hmissing.
Qed.

Lemma workflowList_advertises_document_name_witness :
  contains (cat [ "To use: `workflow_fetch("; q "checkout"; ")`" ])
           (cat [ "# Available Workflows"; nl; nl; "Found 1 workflow(s):"; nl; nl;
                  "## 1. checkout"; nl;
                  "- **Description:** Check out the cart"; nl;
                  "- **Steps:** 2"; nl;
                  "- **File:** `cart.json`"; nl; nl;
                  "To use: `workflow_fetch("; q "checkout"; ")`"; nl ]) /\
  (names_a_file (Some (JStr "checkout")) = true ->
   assoc ("checkout" ++ ".json") [ ("cart.json", File (Json checkout_document)) ] = None ->
   workflowFetch (set_workflows empty_store [ ("cart.json", File (Json checkout_document)) ])
                 (Some (JStr "checkout"))
     = Thrown (Error ("Workflow not found: " ++ "checkout"))).
Proof.
  apply (workflowList_advertises_document_name
           (set_workflows empty_store [ ("cart.json", File (Json checkout_document)) ])
           [ ("cart.json", File (Json checkout_document)) ]
           "cart.json" "checkout"
           (cat [ "# Available Workflows"; nl; nl; "Found 1 workflow(s):"; nl; nl;
                  "## 1. checkout"; nl;
                  "- **Description:** Check out the cart"; nl;
                  "- **Steps:** 2"; nl;
                  "- **File:** `cart.json`"; nl; nl;
                  "To use: `workflow_fetch("; q "checkout"; ")`"; nl ])
           [ ("name", JStr "checkout");
             ("description", JStr "Check out the cart");
             ("steps",
              JArr [ JObj [ ("step", JNum 1); ("tool", JStr "browser_navigate");
                            ("description", JStr "Open the cart");
                            ("arguments", JObj [ ("url", JStr "https://shop.test/cart") ]) ];
                     JObj [ ("step", JNum 2); ("tool", JStr "browser_click");
                            ("description", JStr "Press Checkout");
                            ("arguments", JObj [ ("element", JStr "Checkout button") ]) ] ]) ]
           [ JObj [ ("step", JNum 1); ("tool", JStr "browser_navigate");
                    ("description", JStr "Open the cart");
                    ("arguments", JObj [ ("url", JStr "https://shop.test/cart") ]) ];
             JObj [ ("step", JNum 2); ("tool", JStr "browser_click");
                    ("description", JStr "Press Checkout");
                    ("arguments", JObj [ ("element", JStr "Checkout button") ]) ] ]).
  - reflexivity.
  - left; reflexivity.
  - reflexivity.
  - reflexivity.
  - reflexivity.
  - reflexivity.
Defined.

(** ** Recording notifications and the dispatcher's arguments *)

(** X15.  A notification whose action is none of navigate, click, type,
    select_option and snapshot is dropped without an error, also during
    an active session and whatever its parameters: no recording
    operation is called and the world is unchanged. *)
Theorem workflowRecordAction_ignores_unknown_action
        (operations : RecordingOperations) (act params : jsval) (w : world) :
  (forall kind,
     In kind [ "navigate"; "click"; "type"; "select_option"; "snapshot" ] ->
     is_string act kind = false) ->
  workflowRecordAction act params w = (Returned tt, w).
Proof.
  intros Hunknown. unfold workflowRecordAction.
  destruct (negb (isRecording (recorder w))); [reflexivity | ].
  rewrite !Hunknown by (simpl; tauto). reflexivity.
Qed.

Lemma workflowRecordAction_ignores_unknown_action_witness :
  @workflowRecordAction throwing_operations (Some (JStr "hover")) None recording_world
    = (Returned tt, recording_world).
Proof.
  apply (workflowRecordAction_ignores_unknown_action throwing_operations
           (Some (JStr "hover")) None recording_world).
  intros kind [<- | [<- | [<- | [<- | [<- | []]]]]]; reflexivity.
Defined.

(** X16.  During an active session, a notification of one of the five
    known actions whose parameters are [undefined] or [null] fails with
    a TypeError before any recording operation is called: the recorder
    and the rest of the world are as before. *)
Theorem workflowRecordAction_needs_params
        (operations : RecordingOperations) (kind : string) (params : jsval) (w : world) :
  isRecording (recorder w) = true ->
  In kind [ "navigate"; "click"; "type"; "select_option"; "snapshot" ] ->
  params = None \/ params = Some JNull ->
  exists m, workflowRecordAction (Some (JStr kind)) params w = (Thrown (TypeError m), w).
Proof.
  intros Hactive Hkind Hparams. unfold workflowRecordAction. rewrite Hactive.
  destruct Hkind as [<- | [<- | [<- | [<- | [<- | []]]]]];
    destruct Hparams as [-> | ->]; cbn; eexists; reflexivity.
Qed.

Lemma workflowRecordAction_needs_params_witness :
  exists m,
    @workflowRecordAction throwing_operations (Some (JStr "type")) None recording_world
      = (Thrown (TypeError m), recording_world).
Proof.
  apply (workflowRecordAction_needs_params throwing_operations "type" None
           recording_world).
  - reflexivity.
  - right; right; left; reflexivity.
  - left; reflexivity.
Defined.

(** X17.  A call without an arguments object ([undefined] or [null])
    to one of the four tools that take parameters fails with a
    TypeError, raised in the handler before the operation runs, and
    changes nothing; the two tools without parameters do not look at the
    arguments at all. *)
Theorem callTool_needs_arguments_object (name : string) (args : jsval) (w : world) :
  args = None \/ args = Some JNull ->
  (In name [ "login_to_site"; "get_login_credentials"; "workflow_fetch";
             "workflow_record_start" ] ->
   exists m, callTool name args w = (Thrown (TypeError m), w)) /\
  (In name [ "workflow_list"; "workflow_record_stop" ] ->
   forall other, callTool name args w = callTool name other w).
Proof.
  intros Hargs. split.
  - intros [<- | [<- | [<- | [<- | []]]]]; destruct Hargs as [-> | ->];
      cbn; eexists; reflexivity.
  - intros [<- | [<- | []]] other; reflexivity.
Qed.

Lemma callTool_needs_arguments_object_witness :
  (exists m, callTool "workflow_fetch" None one_document_store
             = (Thrown (TypeError m), one_document_store)) /\
  (forall other,
     callTool "workflow_list" None one_document_store
       = callTool "workflow_list" other one_document_store).
Proof.
  split.
  - apply (callTool_needs_arguments_object "workflow_fetch" None one_document_store).
    + left; reflexivity.
    + right; right; left; reflexivity.
  - apply (callTool_needs_arguments_object "workflow_list" None one_document_store).
    + left; reflexivity.
    + left; reflexivity.
Defined.

(** X18.  [workflow_fetch] and [get_login_credentials] use their
    argument only through its conversion to a string: two arguments
    with the same string form, one that can be a file name, give the
    same outcome.  So a call whose
    arguments object lacks the required field is served as if the name
    were the string "undefined", the declared [required] fields not
    being enforced. *)
Theorem readers_see_the_string_form (w : world) (v1 v2 : jsval) :
  names_a_file v1 = true -> names_a_file v2 = true ->
  ToString v1 = ToString v2 ->
  workflowFetch w v1 = workflowFetch w v2 /\
  getLoginCredentials w v1 = getLoginCredentials w v2.
Proof.
  intros _ _ Hsame. split.
  - unfold workflowFetch, workflow_not_found_listing. rewrite Hsame. reflexivity.
  - unfold getLoginCredentials, no_credentials_found. rewrite Hsame. reflexivity.
Qed.

Lemma readers_see_the_string_form_witness :
  workflowFetch one_document_store None
    = workflowFetch one_document_store (Some (JStr "undefined")) /\
  getLoginCredentials partial_credentials_world (Some (JNum 5))
    = getLoginCredentials partial_credentials_world (Some (JStr "5")).
Proof.
  split.
  - apply (readers_see_the_string_form one_document_store None (Some (JStr "undefined")));
      reflexivity.
  - apply (readers_see_the_string_form partial_credentials_world
             (Some (JNum 5)) (Some (JStr "5"))); reflexivity.
Defined.

(** ** The workflow store: what is fetched after a save *)

(** The block [workflowFetch] prints for a persisted Step. *)
Lemma fetch_step_of_step (s : Step) :
  fetch_step (step_to_json s)
    = Returned (cat [ "### Step "; decimal_nat (index s); ": "; description s; nl;
                      "- **Tool:** `"; tool s; "`"; nl;
                      "- **Arguments:** ```json"; nl;
                      JSON_stringify (JObj (arguments s)); nl; "```"; nl;
                      ""; nl ]).
Proof. destruct s as [i t [d | ] a c]; reflexivity. Qed.

Lemma fetch_steps_of_steps (steps : list Step) :
  map_throwing fetch_step (map step_to_json steps)
    = Returned (map (fun s =>
                       cat [ "### Step "; decimal_nat (index s); ": "; description s; nl;
                             "- **Tool:** `"; tool s; "`"; nl;
                             "- **Arguments:** ```json"; nl;
                             JSON_stringify (JObj (arguments s)); nl; "```"; nl;
                             ""; nl ]) steps).
Proof.
  induction steps as [ | s steps IH]; [reflexivity | ].
  cbn [map map_throwing]. rewrite fetch_step_of_step, IH. reflexivity.
Qed.

(** C8.  After [save] has stored a Workflow of plain values under a
    name that can be a file name, [workflow_fetch] of that name reads
    back the document that was saved and returns a text that shows the
    name, the description and the number of steps of the Workflow, the
    block of each of its steps (index, description, tool, arguments)
    and the whole saved document as JSON. *)
Theorem save_then_fetch_round_trip (wf : Workflow) (w w' : world) (location : string) :
  names_a_file (Some (JStr (wf_name wf))) = true ->
  plain_json (workflow_to_json wf) = true ->
  save wf w = (Returned location, w') ->
  exists document t,
    (data <- readFile w' (in_WORKFLOWS_DIR (wf_name wf ++ ".json")) ;; JSON_parse data)
      = Returned document /\
    document = workflow_to_json wf /\
    own_property document "name" = Some (JStr (wf_name wf)) /\
    own_property document "description" = Some (JStr (wf_description wf)) /\
    own_property document "steps" = Some (JArr (map step_to_json (wf_steps wf))) /\
    fetch_text document = Returned t /\
    workflowFetch w' (Some (JStr (wf_name wf))) = Returned (text_result t) /\
    contains (cat [ "# Workflow: "; wf_name wf; nl ]) t /\
    contains (cat [ "**Description:** "; wf_description wf; nl ]) t /\
    contains (cat [ "**Steps:** "; decimal_nat (List.length (wf_steps wf)); nl ]) t /\
    (forall s,
       In s (wf_steps wf) ->
       contains (cat [ "### Step "; decimal_nat (index s); ": "; description s; nl;
                       "- **Tool:** `"; tool s; "`"; nl;
                       "- **Arguments:** ```json"; nl;
                       JSON_stringify (JObj (arguments s)); nl; "```"; nl ]) t) /\
    contains (cat [ "**Full workflow JSON:**"; nl; "```json"; nl;
                    JSON_stringify (workflow_to_json wf); nl; "```" ]) t.
Proof.
  intros _ _. unfold save.
  destruct (workflows w) as [entries | ] eqn:Hdir; intros Hsave; [ | discriminate].
  injection Hsave as _ <-.
  assert (Hread : readFile (set_workflows w
                              (put (wf_name wf ++ ".json")
                                   (File (Json (workflow_to_json wf))) entries))
                           (in_WORKFLOWS_DIR (wf_name wf ++ ".json"))
                  = Returned (Json (workflow_to_json wf))).
  { unfold readFile, lookup_file, set_workflows; cbn [workflows].
    rewrite assoc_put. reflexivity. }
  assert (Htext : exists t,
             fetch_text (workflow_to_json wf) = Returned t /\
             t = cat [ "# Workflow: "; wf_name wf; nl; nl;
                       "**Description:** "; wf_description wf; nl; nl;
                       "**Steps:** "; decimal_nat (List.length (wf_steps wf)); nl; nl;
                       "## Workflow Steps"; nl; nl;
                       join "" (map (fun s =>
                                       cat [ "### Step "; decimal_nat (index s); ": ";
                                             description s; nl;
                                             "- **Tool:** `"; tool s; "`"; nl;
                                             "- **Arguments:** ```json"; nl;
                                             JSON_stringify (JObj (arguments s)); nl;
                                             "```"; nl; ""; nl ]) (wf_steps wf));
                       nl; "## Success Criteria"; nl; nl;
                       join nl (map (fun x => "- " ++ json_ToString x)
                                    (map JStr (successCriteria wf)));
                       nl; nl; "## Implementation Notes"; nl; nl;
                       join nl (map (fun x => "- " ++ json_ToString x)
                                    (map JStr (notes wf)));
                       nl; nl; "---"; nl; nl;
                       "**To execute this workflow:**"; nl;
                       "1. Take snapshots to find current element refs"; nl;
                       "2. Execute each step using the Playwright browser tools"; nl;
                       "3. Adapt refs (like {{SEARCH_INPUT_REF}}) based on current page"; nl;
                       "4. Verify success criteria at the end"; nl; nl;
                       "**Full workflow JSON:**"; nl; "```json"; nl;
                       JSON_stringify (workflow_to_json wf); nl; "```" ]).
  { eexists. split; [ | reflexivity].
    unfold fetch_text. unfold workflow_to_json at 1 2 3 4 5 6.
    rewrite !get_object.
    cbn [assoc String.eqb Ascii.eqb Bool.eqb bind get own_property js_map js_or truthy].
    rewrite fetch_steps_of_steps. cbn [bind]. rewrite !bullets_total. cbn [bind].
    rewrite length_map. reflexivity. }
  destruct Htext as (t & Ht & Hshape).
  exists (workflow_to_json wf), t.
  split; [rewrite Hread; reflexivity | ].
  split; [reflexivity | ].
  split; [reflexivity | ].
  split; [reflexivity | ].
  split; [reflexivity | ].
  split; [exact Ht | ].
  split.
  { unfold workflowFetch. cbn [ToString json_ToString]. rewrite Hread.
    cbn [bind JSON_parse]. rewrite Ht. reflexivity. }
  rewrite Hshape.
  split; [find_pieces | ].
  split; [find_pieces | ].
  split; [find_pieces | ].
  split; [ | find_pieces].
  intros s Hin.
  apply contains_trans
    with (b := cat [ "### Step "; decimal_nat (index s); ": "; description s; nl;
                     "- **Tool:** `"; tool s; "`"; nl;
                     "- **Arguments:** ```json"; nl;
                     JSON_stringify (JObj (arguments s)); nl; "```"; nl; ""; nl ]).
  - find_pieces.
  - eapply contains_trans.
    + apply contains_join with (sep := "").
      apply (in_map (fun s0 =>
                       cat [ "### Step "; decimal_nat (index s0); ": "; description s0; nl;
                             "- **Tool:** `"; tool s0; "`"; nl;
                             "- **Arguments:** ```json"; nl;
                             JSON_stringify (JObj (arguments s0)); nl; "```"; nl;
                             ""; nl ]) _ _ Hin).
    + match goal with
      | |- contains ?block _ => change block with (cat [ block ])
      end.
      find_pieces.
Qed.

Lemma save_then_fetch_round_trip_witness :
  exists document t,
    (data <- readFile (snd (save checkout_workflow one_document_store))
                      (in_WORKFLOWS_DIR ("checkout" ++ ".json")) ;; JSON_parse data)
      = Returned document /\
    document = workflow_to_json checkout_workflow /\
    own_property document "name" = Some (JStr "checkout") /\
    own_property document "description" = Some (JStr "checkout") /\
    own_property document "steps"
      = Some (JArr (map step_to_json (wf_steps checkout_workflow))) /\
    fetch_text document = Returned t /\
    workflowFetch (snd (save checkout_workflow one_document_store))
                  (Some (JStr "checkout")) = Returned (text_result t) /\
    contains (cat [ "# Workflow: "; "checkout"; nl ]) t /\
    contains (cat [ "**Description:** "; "checkout"; nl ]) t /\
    contains (cat [ "**Steps:** "; decimal_nat 2; nl ]) t /\
    (forall s,
       In s (wf_steps checkout_workflow) ->
       contains (cat [ "### Step "; decimal_nat (index s); ": "; description s; nl;
                       "- **Tool:** `"; tool s; "`"; nl;
                       "- **Arguments:** ```json"; nl;
                       JSON_stringify (JObj (arguments s)); nl; "```"; nl ]) t) /\
    contains (cat [ "**Full workflow JSON:**"; nl; "```json"; nl;
                    JSON_stringify (workflow_to_json checkout_workflow); nl; "```" ]) t.
Proof.
  apply (save_then_fetch_round_trip checkout_workflow one_document_store
           (snd (save checkout_workflow one_document_store))
           "/srv/custom-mcp-server/workflows/checkout.json"); reflexivity.
Defined.
